(** * padhAI-server: the indexing and chat endpoints of [server.py]

    A shallow embedding of [index_folder] and [chat] together with the
    collaborators they drive (Supabase storage, the PDF loader, the text
    splitter, the embedding and generation providers, and the local index
    directory), followed by the properties of the design document that
    concern them. *)

From Stdlib Require Import ZArith Ascii String Sorted.
From stdpp Require Import gmap strings list fin_maps pretty.

Open Scope string_scope.

(** ** Python strings *)

Module PyStr.

Definition startswith (s pre : string) : bool := String.prefix pre s.

Definition endswith (s suf : string) : bool :=
  let n := String.length s in
  let m := String.length suf in
  if (m <=? n)%nat then String.eqb (String.substring (n - m) m s) suf else false.

Definition lower_ascii (c : ascii) : ascii :=
  let n := nat_of_ascii c in
  if ((65 <=? n) && (n <=? 90))%nat then ascii_of_nat (n + 32) else c.

(** [str.lower()], on the ASCII range of the alphabet modelled here. *)
Fixpoint lower (s : string) : string :=
  match s with
  | EmptyString => EmptyString
  | String c r => String (lower_ascii c) (lower r)
  end.

(** [sep.join(parts)] *)
Fixpoint join (sep : string) (parts : list string) : string :=
  match parts with
  | [] => ""
  | [p] => p
  | p :: rest => p ++ sep ++ join sep rest
  end.

(** [s.split(c)] for a one-character separator: never returns []. *)
Fixpoint split_char (c : ascii) (s : string) : list string :=
  match s with
  | EmptyString => [""]
  | String d r =>
      if Ascii.eqb d c then "" :: split_char c r
      else match split_char c r with
           | [] => [String d ""]
           | w :: ws => String d w :: ws
           end
  end.

(** [sub in s], as a predicate: [s = pre + sub + post]. *)
Definition occurs_in (sub s : string) : Prop :=
  exists pre post, s = pre ++ sub ++ post.

Definition nl : string := String (ascii_of_nat 10) "".

End PyStr.

(** ** [os.path] on POSIX *)

Module OsPath.

Definition sep : string := "/".

(** One round of the loop of [posixpath.join]. *)
Definition join_step (path b : string) : string :=
  if PyStr.startswith b sep then b
  else if String.eqb path "" || PyStr.endswith path sep then path ++ b
  else path ++ sep ++ b.

(** [os.path.join(a, *p)] *)
Definition join (a : string) (p : list string) : string :=
  fold_left join_step p a.

End OsPath.

(** ** Python exceptions and results *)

Module Py.

(** The two kinds of exception the handlers can see: FastAPI's
    [HTTPException(status_code, detail)], and any other [Exception],
    carried by its [str()]. *)
Inductive exn : Type :=
| HTTPException (status_code : Z) (detail : string)
| Error (msg : string).

(** [str(e)]; Starlette prints an [HTTPException] as
    ["{status_code}: {detail}"]. *)
Definition str (e : exn) : string :=
  match e with
  | HTTPException c d => pretty c ++ ": " ++ d
  | Error m => m
  end.

Inductive result (A : Type) : Type :=
| Ok (a : A)
| Raise (e : exn).
Arguments Ok {A} a.
Arguments Raise {A} e.

(** [str(x)] for a value that may be [None]. *)
Definition str_opt (o : option string) : string :=
  match o with Some s => s | None => "None" end.

End Py.
Export Py.

(** ** Data *)

(** An entry of a Supabase storage listing: a dict with (at least) the keys
    [name] and [id]; a missing key is [None]. *)
Record file_obj : Type := { fo_name : option string; fo_id : option string }.

(** A LangChain [Document]: a page of a PDF, or a chunk of one. *)
Record Document : Type :=
  { page_content : string; metadata_source : string; metadata_page : Z }.

(** An embedding vector; components in fixed point. *)
Definition Embedding : Type := list Z.

(** The keyword arguments of [ChatGroq(...)]. *)
Record llm_config : Type :=
  { model : string;
    temperature : Z;
    max_tokens : option Z;
    reasoning_format : string;
    timeout : option Z;
    max_retries : Z }.

(** [IndexRequest] and [ChatRequest] (pydantic models). *)
Record IndexRequest : Type := { ir_folder_name : string }.
Record ChatRequest : Type := { cr_folder_name : string; cr_query : string }.

(** The dict returned by [index_folder] and the one returned by [chat]. *)
Record IndexResponse : Type :=
  { status : string; folder : string; files_processed : nat; chunks_created : nat }.
Record ChatResponse : Type :=
  { answer : string; chat_folder : string; chat_user_id : string }.

(** ** The local file system under the server process *)

Module Fs.

(** A canonical absolute path: the names from the root down. *)
Abbreviation path := (list string) (only parsing).

(** What a regular file holds: the FAISS index written by
    [faiss.write_index], the pickled docstore, or anything else. *)
Inductive content : Type :=
| FaissIndex (vectors : list Embedding)
| DocStore (docs : list Document)
| Blob (data : string).

Inductive node : Type :=
| Dir
| File (c : content).

Record filesys : Type := { cwd : path; nodes : gmap path node }.

Definition parent (p : path) : path := removelast p.

Definition is_dir (ns : gmap path node) (p : path) : bool :=
  match p with
  | [] => true
  | _ => match ns !! p with Some Dir => true | _ => false end
  end.

Definition is_dot (c : string) : bool := String.eqb c "" || String.eqb c ".".

(** Path resolution without symbolic links: every component but the last
    has to name an existing directory; [..] of the root is the root. *)
Fixpoint walk (ns : gmap path node) (cur : path) (comps : list string) : option path :=
  match comps with
  | [] => Some cur
  | c :: rest =>
      if is_dot c then walk ns cur rest
      else if String.eqb c ".." then walk ns (parent cur) rest
      else
        let nxt := (cur ++ [c])%list in
        match rest with
        | [] => Some nxt
        | _ => if is_dir ns nxt then walk ns nxt rest else None
        end
  end.

Definition start (fs : filesys) (s : string) : path :=
  if PyStr.startswith s "/" then [] else cwd fs.

Definition components (s : string) : list string := PyStr.split_char "/" s.

Definition resolve (fs : filesys) (s : string) : option path :=
  walk (nodes fs) (start fs s) (components s).

(** [os.path.exists(s)] *)
Definition exists_ (fs : filesys) (s : string) : bool :=
  match resolve fs s with
  | Some [] => true
  | Some p => match nodes fs !! p with Some _ => true | None => false end
  | None => false
  end.

(** The directory walk of [os.makedirs(s, exist_ok=True)] and of
    [Path(s).mkdir(parents=True, exist_ok=True)]: missing directories are
    created on the way; a regular file in the way is an error. *)
Fixpoint walk_create (ns : gmap path node) (cur : path) (comps : list string)
  : option (gmap path node * path) :=
  match comps with
  | [] => Some (ns, cur)
  | c :: rest =>
      if is_dot c then walk_create ns cur rest
      else if String.eqb c ".." then walk_create ns (parent cur) rest
      else
        let nxt := (cur ++ [c])%list in
        match ns !! nxt with
        | Some Dir => walk_create ns nxt rest
        | Some (File _) => None
        | None => walk_create (<[nxt := Dir]> ns) nxt rest
        end
  end.

Definition makedirs (fs : filesys) (s : string) : option filesys :=
  match walk_create (nodes fs) (start fs s) (components s) with
  | Some (ns, _) => Some {| cwd := cwd fs; nodes := ns |}
  | None => None
  end.

(** [Path(dir) / name], as a string. *)
Definition child (dir name : string) : string :=
  if String.eqb dir "" then name else dir ++ "/" ++ name.

(** [open(s, "rb").read()] *)
Definition read (fs : filesys) (s : string) : option content :=
  match resolve fs s with
  | Some p => match nodes fs !! p with Some (File c) => Some c | _ => None end
  | None => None
  end.

(** [open(s, "wb").write(c)]: the directory has to exist and the target
    must not be a directory; an existing file is replaced in place. *)
Definition write (fs : filesys) (s : string) (c : content) : option filesys :=
  match resolve fs s with
  | Some p =>
      if is_dir (nodes fs) (parent p) then
        match p, nodes fs !! p with
        | [], _ => None
        | _, Some Dir => None
        | _, _ => Some {| cwd := cwd fs; nodes := <[p := File c]> (nodes fs) |}
        end
      else None
  | None => None
  end.

End Fs.

(** ** The collaborators *)

(** [supabase.storage.from_("folders").list] is called in two forms. *)
Inductive list_call : Type := ByKeyword | ByPosition.

Inductive fs_op : Type :=
| OpMakedirs (p : string)
| OpRead (p : string)
| OpWrite (p : string).

(** Raw bytes, one character per byte. *)
Definition bytes : Type := string.

(** What the server cannot decide by itself: the answers of Supabase
    storage, of the temporary-file area and the PDF parser, of the
    embedding and generation providers, and whether the disk serves an
    operation at all (an [OSError] otherwise). *)
Record Env : Type :=
  { storage_list : list_call -> string -> result (list file_obj);
    storage_download : string -> result bytes;
    tmp_write : bytes -> result string;
    pdf_load : string -> bytes -> result (list Document);
    unlink : string -> result unit;
    embed_documents : string -> list string -> result (list Embedding);
    embed_query : string -> string -> result Embedding;
    similarity : Embedding -> Embedding -> Z;
    generate : llm_config -> string -> result string;
    disk_ok : fs_op -> bool }.

(** Every call that leaves the function body, in the order it is made. *)
Inductive event : Type :=
| StorageList (form : list_call) (p : string)
| StorageDownload (p : string)
| TmpWrite (data : bytes)
| PdfLoad (tmp : string)
| Unlink (tmp : string)
| EmbedDocuments (texts : list string)
| EmbedQuery (text : string)
| Generate (cfg : llm_config) (prompt : string)
| PathExists (p : string)
| MakeDirs (p : string)
| ReadFile (p : string)
| WriteFile (p : string).

Definition is_provider_call (e : event) : bool :=
  match e with
  | EmbedDocuments _ | EmbedQuery _ | Generate _ _ => true
  | _ => false
  end.

Definition is_index_access (e : event) : bool :=
  match e with
  | PathExists _ | MakeDirs _ | ReadFile _ | WriteFile _ => true
  | _ => false
  end.

(** ** State and exceptions threaded through a request *)

Record world : Type := { w_fs : Fs.filesys; w_trace : list event }.

Definition M (A : Type) : Type := world -> result A * world.

Definition ret {A} (a : A) : M A := fun w => (Ok a, w).

Definition bind {A B} (m : M A) (k : A -> M B) : M B :=
  fun w => match m w with
           | (Ok a, w') => k a w'
           | (Raise e, w') => (Raise e, w')
           end.

Definition raise {A} (e : exn) : M A := fun w => (Raise e, w).

(** [try: m  except Exception as e: h e] *)
Definition catch {A} (m : M A) (h : exn -> M A) : M A :=
  fun w => match m w with
           | (Ok a, w') => (Ok a, w')
           | (Raise e, w') => h e w'
           end.

(** [try: m  finally: f] *)
Definition finally {A} (m : M A) (f : M unit) : M A :=
  fun w => match m w with
           | (r, w') => match f w' with
                        | (Ok _, w'') => (r, w'')
                        | (Raise e, w'') => (Raise e, w'')
                        end
           end.

Definition emit (e : event) : M unit :=
  fun w => (Ok tt, {| w_fs := w_fs w; w_trace := (w_trace w ++ [e])%list |}).

Definition lift {A} (r : result A) : M A := fun w => (r, w).

Definition get_fs : M Fs.filesys := fun w => (Ok (w_fs w), w).

Definition put_fs (fs : Fs.filesys) : M unit :=
  fun w => (Ok tt, {| w_fs := fs; w_trace := w_trace w |}).

Notation "x <- m ;; k" := (bind m (fun x => k))
  (at level 100, m at next level, right associativity).
Notation "m ;;; k" := (bind m (fun _ => k))
  (at level 100, right associativity).

Definition os_error (what : string) : exn := Error ("OSError: " ++ what).

(** [os.path.exists] *)
Definition path_exists (p : string) : M bool :=
  emit (PathExists p) ;;;
  fs <- get_fs ;;
  ret (Fs.exists_ fs p).

(** [os.makedirs(p, exist_ok=True)] *)
Definition makedirs (env : Env) (p : string) : M unit :=
  emit (MakeDirs p) ;;;
  fs <- get_fs ;;
  if disk_ok env (OpMakedirs p) then
    match Fs.makedirs fs p with
    | Some fs' => put_fs fs'
    | None => raise (os_error p)
    end
  else raise (os_error p).

Definition read_file (env : Env) (p : string) : M Fs.content :=
  emit (ReadFile p) ;;;
  fs <- get_fs ;;
  if disk_ok env (OpRead p) then
    match Fs.read fs p with
    | Some c => ret c
    | None => raise (os_error p)
    end
  else raise (os_error p).

Definition write_file (env : Env) (p : string) (c : Fs.content) : M unit :=
  emit (WriteFile p) ;;;
  fs <- get_fs ;;
  if disk_ok env (OpWrite p) then
    match Fs.write fs p c with
    | Some fs' => put_fs fs'
    | None => raise (os_error p)
    end
  else raise (os_error p).

(** ** The chunker

    [index_folder] only configures the splitter; the class is LangChain's.
    The definitions below follow sections 3 and 4.1 of the design document
    for what it does with that configuration. *)

Module Splitter.

(** The arguments of [RecursiveCharacterTextSplitter(...)]. *)
Record config : Type :=
  { chunk_size : nat; chunk_overlap : nat; separators : list string }.



Fixpoint contains (sub s : string) : bool :=
  String.prefix sub s
  || match s with
     | EmptyString => false
     | String _ r => contains sub r
     end.

Definition push (c : ascii) (l : list string) : list string :=
  match l with
  | [] => [String c ""]
  | w :: ws => String c w :: ws
  end.

(** Cuts [s] in front of every occurrence of [sep] (left to right, not
    overlapping); the separator stays with the piece that follows it, so
    the pieces concatenate to [s]. *)
Fixpoint cut (sep : string) (skip : nat) (s : string) : list string :=
  match s with
  | EmptyString => [""]
  | String c r =>
      match skip with
      | S k => push c (cut sep k r)
      | O =>
          if String.prefix sep s
          then "" :: push c (cut sep (String.length sep - 1) r)
          else push c (cut sep 0 r)
      end
  end.

Definition nonempty (s : string) : bool := negb (String.eqb s "").

Definition split_on (sep s : string) : list string :=
  filter (fun p => nonempty p = true) (cut sep 0 s).

Fixpoint chars (s : string) : list string :=
  match s with
  | EmptyString => []
  | String c r => String c "" :: chars r
  end.

Definition total_len (l : list string) : nat :=
  fold_right (fun s n => String.length s + n) 0 l.

Definition emit_chunk (cur : list string) : list string :=
  match cur with
  | [] => []
  | _ => [PyStr.join "" cur]
  end.

(** What the next chunk inherits from the one just closed: pieces are
    dropped from the front until at most [chunk_overlap] characters are
    left and the incoming piece of [d] characters fits. *)
Fixpoint carry_over (cfg : config) (d : nat) (cur : list string) : list string :=
  match cur with
  | [] => []
  | _ :: rest =>
      if ((chunk_overlap cfg <? total_len cur)
          || ((chunk_size cfg <? total_len cur + d) && (0 <? total_len cur)))%nat
      then carry_over cfg d rest
      else cur
  end.

(** Packs consecutive pieces into chunks of at most [chunk_size]
    characters, consecutive chunks overlapping. *)
Fixpoint pack (cfg : config) (cur : list string) (pieces : list string) : list string :=
  match pieces with
  | [] => emit_chunk cur
  | d :: rest =>
      if (chunk_size cfg <? total_len cur + String.length d)%nat
      then (emit_chunk cur ++ pack cfg (carry_over cfg (String.length d) cur ++ [d]) rest)%list
      else pack cfg (cur ++ [d])%list rest
  end.

(** The pieces of one granularity: those within [chunk_size] are packed,
    one that exceeds it goes to the [harder] split. *)
Fixpoint regroup (cfg : config) (harder : string -> list string)
         (good : list string) (pieces : list string) : list string :=
  match pieces with
  | [] => pack cfg [] good
  | p :: rest =>
      if (String.length p <=? chunk_size cfg)%nat
      then regroup cfg harder (good ++ [p])%list rest
      else (pack cfg [] good ++ harder p ++ regroup cfg harder [] rest)%list
  end.

(** Modelled from the spec: [RecursiveCharacterTextSplitter] is imported
    from LangChain and its code is not under src/. Section 4.1: the
    separators are tried in turn, the first one that occurs in the text
    cuts it, and only a piece that still exceeds [max_size] falls through
    to the harder separators after it; the empty separator cuts between
    characters; section 3: chunks are bounded by [max_size] and
    consecutive chunks of a unit overlap. *)
Fixpoint split_text (cfg : config) (seps : list string) (text : string) : list string :=
  match seps with
  | [] => [text]
  | s :: rest =>
      if String.eqb s "" then regroup cfg (fun p => [p]) [] (chars text)
      else if contains s text
           then regroup cfg (split_text cfg rest) [] (split_on s text)
           else split_text cfg rest text
  end.

Definition is_space (c : ascii) : bool :=
  let n := nat_of_ascii c in
  ((n =? 32) || ((9 <=? n) && (n <=? 13)))%nat.

Fixpoint blank (s : string) : bool :=
  match s with
  | EmptyString => true
  | String c r => is_space c && blank r
  end.

Definition chunks_of (cfg : config) (d : Document) : list Document :=
  if blank (page_content d) then []
  else map (fun t => {| page_content := t;
                        metadata_source := metadata_source d;
                        metadata_page := metadata_page d |})
           (split_text cfg (separators cfg) (page_content d)).

(** Modelled from the spec: [split_documents] of the same LangChain class.
    Section 4.1: every text unit is chunked on its own, a unit that is
    empty after trimming is skipped, and the only failure is the
    configuration error [max_size <= overlap]. *)
Definition split_documents (cfg : config) (docs : list Document) : result (list Document) :=
  if (chunk_size cfg <=? chunk_overlap cfg)%nat then Raise (Error "ChunkingError")
  else Ok (flat_map (chunks_of cfg) docs).

End Splitter.

(** ** The retriever

    [chat] only configures the retriever; the search is FAISS's. The
    definitions below follow section 4.5 of the design document. *)

Module Retriever.

Section Rank.
Context {A : Type}.

(** Puts [x] in front of the first entry whose score is not above its
    own: among equal scores the earlier insertion stays first. *)
Fixpoint insert (x : A * Z) (l : list (A * Z)) : list (A * Z) :=
  match l with
  | [] => [x]
  | y :: ys => if (snd x <? snd y)%Z then y :: insert x ys else x :: l
  end.

Definition rank (l : list (A * Z)) : list (A * Z) := fold_right insert [] l.

Definition score_all (sim : Embedding -> Embedding -> Z) (q : Embedding)
           (index : list (A * Embedding)) : list (A * Z) :=
  map (fun e => (fst e, sim q (snd e))) index.

(** Modelled from the spec: the similarity search behind
    [vectorstore.as_retriever] is FAISS and LangChain code, not under
    src/. Section 4.5: the similarity of the query to every stored
    embedding is computed, the top [fetch_k] candidates are taken, and
    the top [k] of those are returned, by descending score, ties in
    insertion order. *)
Definition retrieve_scored (sim : Embedding -> Embedding -> Z)
           (index : list (A * Embedding)) (q : Embedding) (k fetch_k : nat)
  : list (A * Z) :=
  firstn k (firstn fetch_k (rank (score_all sim q index))).

Definition retrieve (sim : Embedding -> Embedding -> Z)
           (index : list (A * Embedding)) (q : Embedding) (k fetch_k : nat)
  : list A :=
  map fst (retrieve_scored sim index q k fetch_k).

End Rank.

End Retriever.

(** ** The FAISS vector store, as LangChain wraps it *)

Module FAISS.

(** The flat index (one vector per chunk, in insertion order) and the
    docstore it points into by position. *)
Record vectorstore : Type :=
  { vs_index : list Embedding; vs_docstore : list Document }.

(** [FAISS.from_documents(chunks, embeddings)]: one batched call to the
    embedding provider; the index dimension is read off [embeddings[0]],
    an [IndexError] when there is none. *)
Definition from_documents (env : Env) (emb_model : string) (chunks : list Document)
  : M vectorstore :=
  let texts := map page_content chunks in
  emit (EmbedDocuments texts) ;;;
  vectors <- lift (embed_documents env emb_model texts) ;;
  match vectors with
  | [] => raise (Error "list index out of range")
  | _ => ret {| vs_index := vectors; vs_docstore := chunks |}
  end.

(** [vectorstore.save_local(folder_path)]: the folder is created with its
    parents, then [index.faiss] and [index.pkl] are written into it, one
    after the other and in place. *)
Definition save_local (env : Env) (vs : vectorstore) (folder_path : string) : M unit :=
  makedirs env folder_path ;;;
  write_file env (Fs.child folder_path "index.faiss") (Fs.FaissIndex (vs_index vs)) ;;;
  write_file env (Fs.child folder_path "index.pkl") (Fs.DocStore (vs_docstore vs)).

(** [FAISS.load_local(folder_path, embeddings,
    allow_dangerous_deserialization=True)] *)
Definition load_local (env : Env) (folder_path : string) : M vectorstore :=
  c1 <- read_file env (Fs.child folder_path "index.faiss") ;;
  match c1 with
  | Fs.FaissIndex vectors =>
      c2 <- read_file env (Fs.child folder_path "index.pkl") ;;
      match c2 with
      | Fs.DocStore docs => ret {| vs_index := vectors; vs_docstore := docs |}
      | _ => raise (Error "UnpicklingError")
      end
  | _ => raise (Error "RuntimeError: not a FAISS index")
  end.

(** The positions of the index, each with its vector. *)
Definition entries (vs : vectorstore) : list (nat * Embedding) :=
  combine (seq 0 (length (vs_index vs))) (vs_index vs).

(** Positions back to documents; a position the docstore does not know
    is a [KeyError]. *)
Fixpoint fetch (docs : list Document) (hits : list nat) : result (list Document) :=
  match hits with
  | [] => Ok []
  | i :: rest =>
      match docs !! i with
      | None => Raise (Error ("KeyError: " ++ pretty i))
      | Some d => match fetch docs rest with
                  | Ok ds => Ok (d :: ds)
                  | Raise e => Raise e
                  end
      end
  end.

(** [retriever.get_relevant_documents(query)] with
    [search_type="similarity"]: one call to the embedding provider. *)
Definition similarity_search (env : Env) (emb_model : string) (vs : vectorstore)
           (query : string) (k fetch_k : nat) : M (list Document) :=
  emit (EmbedQuery query) ;;;
  q <- lift (embed_query env emb_model query) ;;
  lift (fetch (vs_docstore vs)
              (Retriever.retrieve (similarity env) (entries vs) q k fetch_k)).

End FAISS.

(** ** Prompt templates *)

Module Prompt.

Fixpoint lookup_kw (name : string) (kw : list (string * string)) : option string :=
  match kw with
  | [] => None
  | (n, v) :: rest => if String.eqb n name then Some v else lookup_kw name rest
  end.

(** [str.format] with keyword arguments [kw], for a template whose only braces are
    [{name}] fields: one pass, the values are not scanned again.
    [field] is the name being read after an opening brace. *)
Fixpoint format_from (kw : list (string * string)) (field : option string)
         (template : string) : result string :=
  match template with
  | EmptyString =>
      match field with
      | None => Ok ""
      | Some _ => Raise (Error "ValueError: expected '}' before end of string")
      end
  | String c r =>
      match field with
      | None =>
          if Ascii.eqb c "{" then format_from kw (Some "") r
          else match format_from kw None r with
               | Ok s => Ok (String c s)
               | Raise e => Raise e
               end
      | Some name =>
          if Ascii.eqb c "}" then
            match lookup_kw name kw with
            | None => Raise (Error ("KeyError: " ++ name))
            | Some v => match format_from kw None r with
                        | Ok s => Ok (v ++ s)
                        | Raise e => Raise e
                        end
            end
          else format_from kw (Some (name ++ String c "")) r
      end
  end.

Definition format (template : string) (kw : list (string * string)) : result string :=
  format_from kw None template.

End Prompt.

(** ** [server.py] *)

Module Server.

Definition INDEX_DIR : string := "./data/indexes".

Definition embedding_model : string := "models/embedding-001".

(** The splitter built in [index_folder]. *)
Definition splitter : Splitter.config :=
  {| Splitter.chunk_size := 1500;
     Splitter.chunk_overlap := 300;
     Splitter.separators :=
       [PyStr.nl ++ PyStr.nl; PyStr.nl; ". "; " "; ""] |}.

(** The [search_kwargs] of the retriever built in [chat]. *)
Definition search_k : nat := 10.
Definition search_fetch_k : nat := 20.

(** The [ChatGroq(...)] built in [chat]. *)
Definition llm : llm_config :=
  {| model := "deepseek-r1-distill-llama-70b";
     temperature := 0;
     max_tokens := None;
     reasoning_format := "parsed";
     timeout := None;
     max_retries := 2 |}.

Definition dq : string := String (ascii_of_nat 34) "".

Definition grounding_instruction : string :=
  "1. Answer based ONLY on the provided context".

Definition sentinel : string :=
  "I don't have enough information in your documents to answer this question.".

Definition sentinel_instruction : string :=
  "2. If the answer isn't in the context, say " ++ dq ++ sentinel ++ dq.

Definition prompt_template : string :=
  PyStr.join PyStr.nl
    [ "You are an expert AI tutor helping students understand their study materials. ";
      "Use the following context from the student's documents to answer their question accurately and comprehensively.";
      "";
      "Context from documents:";
      "{context}";
      "";
      "Student's Question: {question}";
      "";
      "Instructions:";
      grounding_instruction;
      sentinel_instruction;
      "3. Cite specific details from the context when possible";
      "4. Explain concepts clearly and break down complex topics";
      "5. Use examples from the documents if available";
      "6. If relevant, mention which part of the document the information comes from";
      "";
      "Answer:" ].

Definition is_pdf (f : file_obj) : bool :=
  PyStr.endswith (PyStr.lower (default "" (fo_name f))) ".pdf".

Definition is_placeholder (name : option string) : bool :=
  match name with
  | Some n => String.eqb n ".placeholder"
  | None => false
  end.

(** The [for file_obj in pdf_files] loop: download, spill to a temporary
    file, parse, remove the temporary file whatever the parse did. *)
Fixpoint load_pdfs (env : Env) (folder_path : string) (pdf_files : list file_obj)
         (docs : list Document) : M (list Document) :=
  match pdf_files with
  | [] => ret docs
  | file_obj :: rest =>
      let file_name := fo_name file_obj in
      if is_placeholder file_name then load_pdfs env folder_path rest docs
      else
        let file_path := folder_path ++ "/" ++ str_opt file_name in
        emit (StorageDownload file_path) ;;;
        file_data <- lift (storage_download env file_path) ;;
        emit (TmpWrite file_data) ;;;
        tmp_path <- lift (tmp_write env file_data) ;;
        pages <- finally (emit (PdfLoad tmp_path) ;;;
                          lift (pdf_load env tmp_path file_data))
                         (emit (Unlink tmp_path) ;;;
                          lift (unlink env tmp_path)) ;;
        load_pdfs env folder_path rest (docs ++ pages)%list
  end.

(** The listing, with its fallback to the positional form. *)
Definition list_files (env : Env) (folder_path : string) : M (list file_obj) :=
  catch (emit (StorageList ByKeyword folder_path) ;;;
         lift (storage_list env ByKeyword folder_path))
        (fun _ =>
           emit (StorageList ByPosition folder_path) ;;;
           lift (storage_list env ByPosition folder_path)).

(** What the first part of the [try] of [index_folder] leaves in its
    local variables. *)
Record built : Type :=
  { b_pdf_files : list file_obj;
    b_chunks : list Document;
    b_vectorstore : FAISS.vectorstore }.

(** The [try] of [index_folder] up to [FAISS.from_documents]: listing,
    filtering, download and parsing, chunking, embedding. *)
Definition build_index (env : Env) (folder_name user_id : string) : M built :=
  let folder_path := user_id ++ "/" ++ folder_name in
  files_list <- list_files env folder_path ;;
  match files_list with
  | [] =>
      raise (HTTPException 404
               ("No files found in folder '" ++ folder_name ++ "'. Path checked: "
                ++ folder_path
                ++ ". Make sure files are uploaded to the correct location."))
  | _ =>
      let pdf_files := List.filter is_pdf files_list in
      match pdf_files with
      | [] => raise (HTTPException 404
                       ("No PDF files found in folder '" ++ folder_name ++ "'"))
      | _ =>
          docs <- load_pdfs env folder_path pdf_files [] ;;
          match docs with
          | [] => raise (HTTPException 400 "No content extracted from PDFs")
          | _ =>
              chunks <- lift (Splitter.split_documents splitter docs) ;;
              vectorstore <- FAISS.from_documents env embedding_model chunks ;;
              ret {| b_pdf_files := pdf_files;
                     b_chunks := chunks;
                     b_vectorstore := vectorstore |}
          end
      end
  end.

Definition user_dir (user_id : string) : string := OsPath.join INDEX_DIR [user_id].

Definition save_path (folder_name user_id : string) : string :=
  OsPath.join (user_dir user_id) [folder_name ++ "_faiss"].

(** The rest of the [try]: the index goes to disk. *)
Definition store_index (env : Env) (folder_name user_id : string) (b : built) : M unit :=
  let index_path := user_dir user_id in
  makedirs env index_path ;;;
  FAISS.save_local env (b_vectorstore b)
    (OsPath.join index_path [folder_name ++ "_faiss"]).

Definition response (folder_name : string) (b : built) : IndexResponse :=
  {| status := "indexed";
     folder := folder_name;
     files_processed := length (b_pdf_files b);
     chunks_created := length (b_chunks b) |}.

(** The [except Exception as e] of [index_folder]. *)
Definition index_error (e : exn) : exn :=
  HTTPException 500 ("Error indexing folder: " ++ str e).

(** [POST /index_folder] *)
Definition index_folder (env : Env) (request : IndexRequest) (user_id : string)
  : M IndexResponse :=
  let folder_name := ir_folder_name request in
  catch (b <- build_index env folder_name user_id ;;
         store_index env folder_name user_id b ;;;
         ret (response folder_name b))
        (fun e => raise (index_error e)).

Definition index_path_of (user_id folder_name : string) : string :=
  OsPath.join INDEX_DIR [user_id; folder_name ++ "_faiss"].

(** What the retriever of [chat] hands to the chain. *)
Definition retrieve_context (env : Env) (vs : FAISS.vectorstore) (query_text : string)
  : M (list Document) :=
  FAISS.similarity_search env embedding_model vs query_text search_k search_fetch_k.

(** [qa.run(query_text)] for the ["stuff"] chain: the retrieved pages are
    joined by a blank line into [{context}], the template is filled, and
    the generation provider is called once. *)
Definition qa_run (env : Env) (vs : FAISS.vectorstore) (query_text : string) : M string :=
  docs <- retrieve_context env vs query_text ;;
  let context := PyStr.join (PyStr.nl ++ PyStr.nl) (map page_content docs) in
  prompt <- lift (Prompt.format prompt_template
                    [("context", context); ("question", query_text)]) ;;
  emit (Generate llm prompt) ;;;
  lift (generate env llm prompt).

(** The body of the [try] of [chat]. *)
Definition chat_body (env : Env) (folder_name query_text user_id index_path : string)
  : M ChatResponse :=
  vectorstore <- FAISS.load_local env index_path ;;
  answer <- qa_run env vectorstore query_text ;;
  ret {| answer := answer; chat_folder := folder_name; chat_user_id := user_id |}.

(** [POST /chat] *)
Definition chat (env : Env) (request : ChatRequest) (user_id : string)
  : M ChatResponse :=
  let folder_name := cr_folder_name request in
  let query_text := cr_query request in
  if String.eqb query_text "" then raise (HTTPException 400 "Query text is required")
  else
    let index_path := index_path_of user_id folder_name in
    indexed <- path_exists index_path ;;
    if negb indexed then
      raise (HTTPException 404
               ("Folder '" ++ folder_name ++ "' not indexed yet. Please index it first."))
    else
      catch (chat_body env folder_name query_text user_id index_path)
            (fun e => raise (HTTPException 500 ("Error processing chat: " ++ str e))).

End Server.

(** ** [server.py]: the settings read at import time *)

Module Settings.

(** [bool(x)] for a value of [os.getenv]: [None] and the empty string are
    false. *)
Definition truthy (o : option string) : bool :=
  match o with
  | Some s => negb (String.eqb s "")
  | None => false
  end.

(** The module-level names the rest of the file reads. *)
Record settings : Type :=
  { SUPABASE_URL : option string;
    SUPABASE_ANON_KEY : option string;
    SUPABASE_SERVICE_KEY : option string;
    SUPABASE_KEY : option string;
    SUPABASE_JWT_SECRET : option string }.

(** The Supabase block at the top of the file, from the four [os.getenv]
    calls to the fallback of the JWT secret; a [ValueError] stops the
    import. *)
Definition load (getenv : string -> option string) : result settings :=
  let url := getenv "NEXT_PUBLIC_SUPABASE_URL" in
  let anon_key := getenv "NEXT_PUBLIC_SUPABASE_ANON_KEY" in
  let service_key := getenv "SUPABASE_SERVICE_ROLE_KEY" in
  let jwt_secret := getenv "SUPABASE_JWT_SECRET" in
  if negb (truthy url) then Raise (Error "SUPABASE_URL must be set in .env file")
  else
    let key := if truthy service_key then service_key else anon_key in
    if negb (truthy key)
    then Raise (Error "Either SUPABASE_SERVICE_ROLE_KEY or SUPABASE_ANON_KEY must be set")
    else
      let jwt_secret := if negb (truthy jwt_secret) then anon_key else jwt_secret in
      Ok {| SUPABASE_URL := url;
            SUPABASE_ANON_KEY := anon_key;
            SUPABASE_SERVICE_KEY := service_key;
            SUPABASE_KEY := key;
            SUPABASE_JWT_SECRET := jwt_secret |}.

End Settings.

(** ** [server.py]: the authentication dependency *)

Module Auth.

(** What [jwt.decode] can do with a token: hand back the payload (of which
    only the [sub] entry is read; [None] when it is missing), or raise
    [ExpiredSignatureError], another [InvalidTokenError], or something
    else. *)
Inductive jwt_outcome : Type :=
| Payload (sub : option string)
| ExpiredSignatureError (msg : string)
| InvalidTokenError (msg : string)
| OtherException (msg : string).

(** [jwt.decode(token, key, algorithms=..., audience=...)] *)
Definition decoder : Type := string -> string -> list string -> string -> jwt_outcome.

(** What the [try] of [get_current_user] can raise, by the [except] clause
    that takes it. *)
Inductive raised : Type :=
| Expired (msg : string)
| Invalid (msg : string)
| Other (e : exn).

(** [authorization.split(" ")[1]] *)
Definition split_token (authorization : string) : result string :=
  match PyStr.split_char " " authorization with
  | _ :: token :: _ => Ok token
  | _ => Raise (Error "list index out of range")
  end.

(** The body of the [try]. *)
Definition decode_user (secret : option string) (decode : decoder) (token : string)
  : raised + string :=
  if negb (Settings.truthy secret)
  then inl (Other (HTTPException 500
                     "Server configuration error: JWT secret not configured"))
  else
    match decode token (str_opt secret) ["HS256"] "authenticated" with
    | Payload user_id =>
        if negb (Settings.truthy user_id)
        then inl (Other (HTTPException 401 "Invalid token: no user ID"))
        else inr (str_opt user_id)
    | ExpiredSignatureError m => inl (Expired m)
    | InvalidTokenError m => inl (Invalid m)
    | OtherException m => inl (Other (Error m))
    end.

(** [get_current_user(authorization)], with the module's JWT secret and the
    JWT library as arguments. *)
Definition get_current_user (secret : option string) (decode : decoder)
           (authorization : option string) : result string :=
  match authorization with
  | None => Raise (HTTPException 401 "Missing or invalid authorization header")
  | Some header =>
      if negb (PyStr.startswith header "Bearer ")
      then Raise (HTTPException 401 "Missing or invalid authorization header")
      else
        match split_token header with
        | Raise e => Raise e
        | Ok token =>
            match decode_user secret decode token with
            | inr user_id => Ok user_id
            | inl (Expired _) => Raise (HTTPException 401 "Token expired")
            | inl (Invalid m) => Raise (HTTPException 401 ("Invalid token: " ++ m))
            | inl (Other e) =>
                Raise (HTTPException 500 ("Authentication error: " ++ str e))
            end
        end
  end.

End Auth.

(** ** [server.py]: the listing endpoints *)

Module Endpoints.

(** The dict returned by [get_folders]; a listed entry without a [name] key
    contributes [None]. *)
Record FoldersResponse : Type :=
  { folders : list (option string); folders_user_id : string }.

Definition is_folder (f : file_obj) : bool :=
  match fo_id f with
  | None => true
  | Some _ => false
  end.

(** [GET /folders] *)
Definition get_folders (env : Env) (user_id : string) : M FoldersResponse :=
  catch (emit (StorageList ByPosition user_id) ;;;
         files_list <- lift (storage_list env ByPosition user_id) ;;
         let folders := map fo_name (List.filter is_folder files_list) in
         ret {| folders := folders; folders_user_id := user_id |})
        (fun e => raise (HTTPException 500 ("Error fetching folders: " ++ str e))).

(** [GET /]; takes no user. *)
Definition health_check : list (string * string) :=
  [("status", "ok"); ("service", "PadhAI RAG API")].

(** The two dicts [debug_list_storage] can return. *)
Inductive DebugResponse : Type :=
| DebugListing (user_id folder : string)
               (root_files user_files folder_files : list file_obj)
| DebugError (error : string).

(** [GET /debug/list_storage/{user_folder}]. The first listing is called
    without a path, which the storage client sends as the empty prefix. *)
Definition debug_list_storage (env : Env) (user_folder user_id : string)
  : M DebugResponse :=
  catch (emit (StorageList ByPosition "") ;;;
         root_files <- lift (storage_list env ByPosition "") ;;
         emit (StorageList ByPosition user_id) ;;;
         user_files <- lift (storage_list env ByPosition user_id) ;;
         emit (StorageList ByPosition (user_id ++ "/" ++ user_folder)) ;;;
         folder_files <- lift (storage_list env ByPosition (user_id ++ "/" ++ user_folder)) ;;
         ret (DebugListing user_id user_folder root_files user_files folder_files))
        (fun e => ret (DebugError (str e))).

End Endpoints.

(** ** Two [index_folder] requests running at once

    FastAPI runs a [def] endpoint on a worker thread, so two requests
    interleave. A handler is cut where it touches the index directory:
    everything before [os.makedirs] is one step, then every file-system
    call is a step of its own. *)

Module Concurrent.

Import Server.

(** Where a handler stands. *)
Inductive pc : Type :=
| Building
| MakingUserDir (b : built)
| MakingFolder (b : built)
| WritingFaiss (b : built)
| WritingPkl (b : built)
| Finished (r : result IndexResponse).

(** One step under the [try]/[except] of [index_folder]. *)
Definition guarded {A} (m : M A) (k : A -> pc) (w : world) : pc * world :=
  match m w with
  | (Ok a, w') => (k a, w')
  | (Raise e, w') => (Finished (Raise (index_error e)), w')
  end.

Definition step (env : Env) (folder_name user_id : string) (s : pc) (w : world)
  : pc * world :=
  let folder := save_path folder_name user_id in
  match s with
  | Building =>
      guarded (build_index env folder_name user_id) MakingUserDir w
  | MakingUserDir b =>
      guarded (makedirs env (user_dir user_id)) (fun _ => MakingFolder b) w
  | MakingFolder b =>
      guarded (makedirs env folder) (fun _ => WritingFaiss b) w
  | WritingFaiss b =>
      guarded (write_file env (Fs.child folder "index.faiss")
                 (Fs.FaissIndex (FAISS.vs_index (b_vectorstore b))))
              (fun _ => WritingPkl b) w
  | WritingPkl b =>
      guarded (write_file env (Fs.child folder "index.pkl")
                 (Fs.DocStore (FAISS.vs_docstore (b_vectorstore b))))
              (fun _ => Finished (Ok (response folder_name b))) w
  | Finished r => (Finished r, w)
  end.

(** A request in flight: the services as they answer this request, what
    was asked, and where its handler stands. *)
Record thread : Type :=
  { t_env : Env; t_request : IndexRequest; t_user : string; t_pc : pc }.

Definition spawn (env : Env) (request : IndexRequest) (user_id : string) : thread :=
  {| t_env := env; t_request := request; t_user := user_id; t_pc := Building |}.

Definition advance (t : thread) (w : world) : thread * world :=
  match step (t_env t) (ir_folder_name (t_request t)) (t_user t) (t_pc t) w with
  | (s, w') => ({| t_env := t_env t; t_request := t_request t;
                   t_user := t_user t; t_pc := s |}, w')
  end.

(** A schedule names, step by step, the thread that moves: [true] the
    first, [false] the second. *)
Fixpoint run (sched : list bool) (a b : thread) (w : world)
  : thread * thread * world :=
  match sched with
  | [] => (a, b, w)
  | true :: rest =>
      match advance a w with (a', w') => run rest a' b w' end
  | false :: rest =>
      match advance b w with (b', w') => run rest a b' w' end
  end.

Fixpoint steps (n : nat) (t : thread) (w : world) : thread * world :=
  match n with
  | O => (t, w)
  | S n' => match advance t w with (t', w') => steps n' t' w' end
  end.

(** A handler running alone: its five steps in a row. *)
Definition alone (env : Env) (request : IndexRequest) (user_id : string) (w : world)
  : thread * world :=
  steps 5 (spawn env request user_id) w.


End Concurrent.

(** ** A small deployment, for concrete runs

    Two tenants, [u1] and [u2]. Storage holds [u1/own/a.pdf],
    [u2/notes/secret.PDF] (beside a text file), [u1/blank/empty.pdf] (a PDF
    without pages), [u1/white/w.pdf] (a PDF whose one page is white space)
    and [u1/broken/b.pdf] (whose download fails). *)

Module Scenario.

Import Server.

Definition entry (name : string) : file_obj :=
  {| fo_name := Some name; fo_id := Some "object" |}.

Definition page (text src : string) : Document :=
  {| page_content := text; metadata_source := src; metadata_page := 0 |}.

Definition listing (p : string) : list file_obj :=
  if String.eqb p "u1/own" then [entry "a.pdf"]
  else if String.eqb p "u2/notes" then [entry "secret.PDF"; entry "readme.txt"]
  else if String.eqb p "u1/blank" then [entry "empty.pdf"]
  else if String.eqb p "u1/white" then [entry "w.pdf"]
  else if String.eqb p "u1/broken" then [entry "b.pdf"]
  else [].

Definition first_component (v : Embedding) : Z := hd 0%Z v.

Definition env0 : Env :=
  {| storage_list := fun _ p => Ok (listing p);
     storage_download := fun p =>
       if String.eqb p "u1/broken/b.pdf" then Raise (Error "StorageException")
       else Ok ("bytes of " ++ p);
     tmp_write := fun _ => Ok "/tmp/tmp0001.pdf";
     pdf_load := fun tmp data =>
       if String.eqb data "bytes of u1/blank/empty.pdf" then Ok []
       else if String.eqb data "bytes of u1/white/w.pdf" then Ok [page "   " tmp]
       else Ok [page ("text from " ++ data) tmp];
     unlink := fun _ => Ok tt;
     embed_documents := fun _ texts =>
       Ok (map (fun t => [Z.of_nat (String.length t)]) texts);
     embed_query := fun _ t => Ok [Z.of_nat (String.length t)];
     similarity := fun q v => (- Z.abs (first_component q - first_component v))%Z;
     generate := fun _ prompt => Ok prompt;
     disk_ok := fun _ => true |}.

(** The same services later on: [u2/notes] now holds a longer document,
    and the disk refuses the write of the docstore file. *)
Definition env1 : Env :=
  {| storage_list := storage_list env0;
     storage_download := fun p => Ok ("second edition of " ++ p);
     tmp_write := tmp_write env0;
     pdf_load := pdf_load env0;
     unlink := unlink env0;
     embed_documents := embed_documents env0;
     embed_query := embed_query env0;
     similarity := similarity env0;
     generate := generate env0;
     disk_ok := fun op =>
       match op with
       | OpWrite p => negb (PyStr.endswith p "index.pkl")
       | _ => true
       end |}.

(** The server started in [/srv], nothing indexed yet. *)
Definition fs0 : Fs.filesys :=
  {| Fs.cwd := ["srv"]; Fs.nodes := {[ ["srv"] := Fs.Dir ]} |}.

Definition boot : world := {| w_fs := fs0; w_trace := [] |}.

Definition quiet (w : world) : world := {| w_fs := w_fs w; w_trace := [] |}.

(** [u2] indexes [notes], then [u1] indexes [own]. *)
Definition after_u2 : world :=
  quiet (snd (index_folder env0 {| ir_folder_name := "notes" |} "u2" boot)).

Definition after_both : world :=
  quiet (snd (index_folder env0 {| ir_folder_name := "own" |} "u1" after_u2)).

Definition secret_text : string := "text from bytes of u2/notes/secret.PDF".

(** [u1] asks about a folder name that climbs out of its own directory. *)
Definition crossing : ChatRequest :=
  {| cr_folder_name := "../u2/notes"; cr_query := "what is in here?" |}.

(** The same with a folder name that starts at the root. *)
Definition rooted : ChatRequest :=
  {| cr_folder_name := "/srv/data/indexes/u2/notes"; cr_query := "what is in here?" |}.


End Scenario.

(** ** Services that fail, for the examples *)

Module Faults.

(** What the positional form of [list] answers: [u1/down] cannot be listed
    at all, and [u1/docs] holds no PDF. *)
Definition listing_by_position (p : string) : result (list file_obj) :=
  if String.eqb p "u1/down" then Raise (Error "StorageException")
  else if String.eqb p "u1/docs"
       then Ok [Scenario.entry "notes.txt"; Scenario.entry ".placeholder"]
       else Ok (Scenario.listing p).

(** A storage client whose [list] does not take [path=]. *)
Definition env2 : Env :=
  {| storage_list := fun form p =>
       match form with
       | ByKeyword => Raise (Error "list() got an unexpected keyword argument 'path'")
       | ByPosition => listing_by_position p
       end;
     storage_download := storage_download Scenario.env0;
     tmp_write := tmp_write Scenario.env0;
     pdf_load := pdf_load Scenario.env0;
     unlink := unlink Scenario.env0;
     embed_documents := embed_documents Scenario.env0;
     embed_query := embed_query Scenario.env0;
     similarity := similarity Scenario.env0;
     generate := generate Scenario.env0;
     disk_ok := disk_ok Scenario.env0 |}.

(** A JWT library that knows four tokens signed with the key [s3cret]. *)
Definition decode0 : Auth.decoder :=
  fun token key _ _ =>
    if negb (String.eqb key "s3cret")
    then Auth.InvalidTokenError "Signature verification failed"
    else if String.eqb token "good" then Auth.Payload (Some "u1")
    else if String.eqb token "nobody" then Auth.Payload None
    else if String.eqb token "old" then Auth.ExpiredSignatureError "Signature has expired"
    else Auth.InvalidTokenError "Not enough segments".

(** An environment with the URL and the service role key, and nothing
    else. *)
Definition getenv0 (name : string) : option string :=
  if String.eqb name "NEXT_PUBLIC_SUPABASE_URL" then Some "https://project.supabase.co"
  else if String.eqb name "SUPABASE_SERVICE_ROLE_KEY" then Some "service-role-key"
  else None.

(** An environment with the URL and the public anon key, and nothing
    else. *)
Definition getenv1 (name : string) : option string :=
  if String.eqb name "NEXT_PUBLIC_SUPABASE_URL" then Some "https://project.supabase.co"
  else if String.eqb name "NEXT_PUBLIC_SUPABASE_ANON_KEY" then Some "s3cret"
  else None.

End Faults.

(** ** A small index, for the examples *)

Module Samples.





End Samples.

(** ** Vocabulary of the statements *)

(** The world after the calls [evs] were made and nothing was written. *)
Definition log (evs : list event) (w : world) : world :=
  {| w_fs := w_fs w; w_trace := (w_trace w ++ evs)%list |}.

(** The world after the calls [evs] were made and the disk was left as [fs]. *)
Definition commit (fs : Fs.filesys) (evs : list event) (w : world) : world :=
  {| w_fs := fs; w_trace := (w_trace w ++ evs)%list |}.

(** A computation that neither reads nor writes the local file system: its
    result and the calls it makes are the same in every world. *)
Definition oblivious {A} (m : M A) : Prop :=
  exists r evs, forall w, m w = (r, log evs w).

(** The HTTP status a failed request surfaces, if it surfaces one. *)
Definition status_of {A} (r : result A) : option Z :=
  match r with
  | Raise (HTTPException c _) => Some c
  | _ => None
  end.

(** The index committed under a folder: its two files, as read back. *)
Definition committed (fs : Fs.filesys) (folder : string)
  : option Fs.content * option Fs.content :=
  (Fs.read fs (Fs.child folder "index.faiss"), Fs.read fs (Fs.child folder "index.pkl")).

(** The three literal stretches of [prompt_template], around its fields. *)
Definition prompt_head : string :=
  PyStr.join PyStr.nl
    [ "You are an expert AI tutor helping students understand their study materials. ";
      "Use the following context from the student's documents to answer their question accurately and comprehensively.";
      "";
      "Context from documents:";
      "" ].

Definition prompt_mid : string :=
  PyStr.join PyStr.nl [ ""; ""; "Student's Question: " ].

Definition prompt_tail : string :=
  PyStr.join PyStr.nl
    [ ""; "";
      "Instructions:";
      Server.grounding_instruction;
      Server.sentinel_instruction;
      "3. Cite specific details from the context when possible";
      "4. Explain concepts clearly and break down complex topics";
      "5. Use examples from the documents if available";
      "6. If relevant, mention which part of the document the information comes from";
      "";
      "Answer:" ].

(** A tenant or folder name without a path separator, and one that moreover
    is not the empty name, [.] or [..]. *)
Fixpoint no_slash (s : string) : bool :=
  match s with
  | EmptyString => true
  | String c r => negb (Ascii.eqb c "/") && no_slash r
  end.

Definition plain (s : string) : bool :=
  no_slash s && negb (Fs.is_dot s) && negb (String.eqb s "..").

Fixpoint last_char (s : string) : option ascii :=
  match s with
  | EmptyString => None
  | String c EmptyString => Some c
  | String _ r => last_char r
  end.

(** Directories are never lost between two states of the node table. *)
Definition dirs_le (ns ns' : gmap Fs.path Fs.node) : Prop :=
  forall p, ns !! p = Some Fs.Dir -> ns' !! p = Some Fs.Dir.






(** What a computation adds to the trace, in whichever world it runs,
    satisfies [P]. *)
Definition logs {A} (P : list event -> Prop) (m : M A) : Prop :=
  forall w, exists evs, w_trace (snd (m w)) = (w_trace w ++ evs)%list /\ P evs.

(** A computation keeps a property of the file system. *)
Definition keeps {A} (I : Fs.filesys -> Prop) (m : M A) : Prop :=
  forall w, I (w_fs w) -> I (w_fs (snd (m w))).

Definition is_tmp_use (e : event) : bool :=
  match e with
  | PdfLoad _ | Unlink _ => true
  | _ => false
  end.

(** Every temporary file handed to the PDF parser is removed right after the
    parse, and nothing else is removed. *)
Inductive tidy : list event -> Prop :=
| tidy_nil : tidy []
| tidy_parse tmp evs : tidy evs -> tidy (PdfLoad tmp :: Unlink tmp :: evs)
| tidy_other e evs : is_tmp_use e = false -> tidy evs -> tidy (e :: evs).

(** A download, if the call is one, fetches a name ending in [.pdf] (in any
    letter case) from under [prefix]. *)
Definition pdf_download (prefix : string) (e : event) : Prop :=
  match e with
  | StorageDownload p =>
      exists name, p = prefix ++ "/" ++ name
                   /\ PyStr.endswith (PyStr.lower name) ".pdf" = true
  | _ => True
  end.

Definition is_download (e : event) : bool :=
  match e with
  | StorageDownload _ => true
  | _ => false
  end.

Fixpoint no_space (s : string) : bool :=
  match s with
  | EmptyString => true
  | String c r => negb (Ascii.eqb c " ") && no_space r
  end.








(** * Facts about the state threading *)

Lemma log_nil w : log [] w = w.
Proof. destruct w as [fs tr]. unfold log. simpl. by rewrite app_nil_r. Qed.

Lemma log_log evs1 evs2 w : log evs2 (log evs1 w) = log (evs1 ++ evs2)%list w.
Proof. unfold log. simpl. by rewrite app_assoc. Qed.

Lemma log_fs evs w : w_fs (log evs w) = w_fs w.
Proof. reflexivity. Qed.

Lemma oblivious_ret {A} (a : A) : oblivious (ret a).
Proof. exists (Ok a), []. intros w. unfold ret. by rewrite log_nil. Qed.

Lemma oblivious_raise {A} (e : exn) : oblivious (@raise A e).
Proof. exists (Raise e), []. intros w. unfold raise. by rewrite log_nil. Qed.

Lemma oblivious_lift {A} (r : result A) : oblivious (lift r).
Proof. exists r, []. intros w. unfold lift. by rewrite log_nil. Qed.

Lemma oblivious_emit (e : event) : oblivious (emit e).
Proof. exists (Ok tt), [e]. intros w. reflexivity. Qed.

Lemma oblivious_bind {A B} (m : M A) (k : A -> M B) :
  oblivious m -> (forall a, oblivious (k a)) -> oblivious (bind m k).
Proof.
  intros (r & evs & Hm) Hk. destruct r as [a|e].
  - destruct (Hk a) as (r' & evs' & Hka).
    exists r', (evs ++ evs')%list. intros w.
    unfold bind. rewrite Hm, Hka. by rewrite log_log.
  - exists (Raise e), evs. intros w. unfold bind. by rewrite Hm.
Qed.

Lemma oblivious_catch {A} (m : M A) (h : exn -> M A) :
  oblivious m -> (forall e, oblivious (h e)) -> oblivious (catch m h).
Proof.
  intros (r & evs & Hm) Hh. destruct r as [a|e].
  - exists (Ok a), evs. intros w. unfold catch. by rewrite Hm.
  - destruct (Hh e) as (r' & evs' & He).
    exists r', (evs ++ evs')%list. intros w.
    unfold catch. rewrite Hm, He. by rewrite log_log.
Qed.

Lemma oblivious_finally {A} (m : M A) (f : M unit) :
  oblivious m -> oblivious f -> oblivious (finally m f).
Proof.
  intros (r & evs & Hm) (rf & evs' & Hf). destruct rf as [u|e].
  - exists r, (evs ++ evs')%list. intros w.
    unfold finally. rewrite Hm, Hf. by rewrite log_log.
  - exists (Raise e), (evs ++ evs')%list. intros w.
    unfold finally. rewrite Hm, Hf. by rewrite log_log.
Qed.

Create HintDb oblivious.
#[export] Hint Resolve oblivious_ret oblivious_raise oblivious_lift oblivious_emit : oblivious.

Ltac oblivious_step :=
  first [ apply oblivious_bind; [| intros ?]
        | apply oblivious_catch; [| intros ?]
        | apply oblivious_finally
        | solve [auto with oblivious] ].

Lemma oblivious_load_pdfs env folder_path pdf_files docs :
  oblivious (Server.load_pdfs env folder_path pdf_files docs).
Proof.
  revert docs. induction pdf_files as [|f rest IH]; intros docs; simpl.
  - auto with oblivious.
  - destruct (Server.is_placeholder (fo_name f)); [apply IH|].
    repeat oblivious_step.
Qed.

Lemma oblivious_list_files env folder_path :
  oblivious (Server.list_files env folder_path).
Proof. unfold Server.list_files. repeat oblivious_step. Qed.

Lemma oblivious_from_documents env emb chunks :
  oblivious (FAISS.from_documents env emb chunks).
Proof.
  unfold FAISS.from_documents. repeat oblivious_step.
  match goal with |- oblivious (match ?v with _ => _ end) => destruct v end;
    auto with oblivious.
Qed.

(** Up to [FAISS.from_documents], a build does not touch the index
    directory, and what it computes does not depend on it. *)
Lemma oblivious_build_index env folder_name user_id :
  oblivious (Server.build_index env folder_name user_id).
Proof.
  unfold Server.build_index.
  apply oblivious_bind; [apply oblivious_list_files|]. intros files.
  destruct files as [|f files]; [auto with oblivious|].
  destruct (List.filter Server.is_pdf (f :: files)) as [|p pdfs]; [auto with oblivious|].
  apply oblivious_bind; [apply oblivious_load_pdfs|]. intros docs.
  destruct docs as [|d docs]; [auto with oblivious|].
  apply oblivious_bind; [auto with oblivious|]. intros chunks.
  apply oblivious_bind; [apply oblivious_from_documents|]. intros vs.
  auto with oblivious.
Qed.

(** * The empty-question check and the index-existence check of [chat] *)

(** C10. A chat request whose question is the empty string is refused with
    status 400 and the world is left exactly as it was: no existence check
    on the index path, no file read, no provider call has been made. *)
Theorem chat_empty_question_rejected_first env request user_id w :
  cr_query request = "" ->
  Server.chat env request user_id w
  = (Raise (HTTPException 400 "Query text is required"), w).
Proof.
  intros Hq. unfold Server.chat. rewrite Hq. reflexivity.
Qed.

Lemma chat_empty_question_rejected_first_witness :
  cr_query {| cr_folder_name := "notes"; cr_query := "" |} = ""
  /\ Server.chat Scenario.env0 {| cr_folder_name := "notes"; cr_query := "" |} "u2"
       Scenario.after_u2
     = (Raise (HTTPException 400 "Query text is required"), Scenario.after_u2).
Proof.
  split; [reflexivity|].
  apply (chat_empty_question_rejected_first Scenario.env0
           {| cr_folder_name := "notes"; cr_query := "" |} "u2" Scenario.after_u2).
  reflexivity.
Defined.

(** C6, as the code has it. A chat request with a question to ask, for a key
    whose index path does not exist, is answered with status 404, "not
    indexed"; the only call made is the existence check itself, so no
    embedding or generation provider call comes before the refusal, and
    nothing is read or written. *)
Theorem chat_unindexed_is_404_before_any_provider_call env request user_id w :
  cr_query request <> "" ->
  Fs.exists_ (w_fs w) (Server.index_path_of user_id (cr_folder_name request)) = false ->
  exists evs,
    Server.chat env request user_id w
    = (Raise (HTTPException 404
                ("Folder '" ++ cr_folder_name request
                 ++ "' not indexed yet. Please index it first.")),
       log evs w)
    /\ evs = [PathExists (Server.index_path_of user_id (cr_folder_name request))]
    /\ Forall (fun e => is_provider_call e = false) evs.
Proof.
  intros Hq Hex.
  exists [PathExists (Server.index_path_of user_id (cr_folder_name request))].
  split; [|split; [reflexivity|]].
  - unfold Server.chat.
    destruct (String.eqb_spec (cr_query request) "") as [E|_]; [contradiction|].
    unfold bind, path_exists, emit, get_fs, ret, raise. simpl.
    rewrite Hex. reflexivity.
  - repeat constructor.
Qed.

Lemma chat_unindexed_is_404_before_any_provider_call_witness :
  exists evs,
    Server.chat Scenario.env0 {| cr_folder_name := "own"; cr_query := "anything?" |} "u1"
      Scenario.after_u2
    = (Raise (HTTPException 404 "Folder 'own' not indexed yet. Please index it first."),
       log evs Scenario.after_u2)
    /\ evs = [PathExists "./data/indexes/u1/own_faiss"]
    /\ Forall (fun e => is_provider_call e = false) evs.
Proof.
  apply (chat_unindexed_is_404_before_any_provider_call Scenario.env0
           {| cr_folder_name := "own"; cr_query := "anything?" |} "u1" Scenario.after_u2).
  - simpl. discriminate.
  - vm_compute. reflexivity.
Defined.

(** The claim of C6 as worded fails here: nothing is indexed for the key
    [(u1, own)], and a request for it with an empty question is answered
    with 400, not with 404; the index path is not even looked at. *)
Lemma chat_unindexed_empty_question_is_400 :
  Fs.exists_ (w_fs Scenario.after_u2) (Server.index_path_of "u1" "own") = false
  /\ Server.chat Scenario.env0 {| cr_folder_name := "own"; cr_query := "" |} "u1"
       Scenario.after_u2
     = (Raise (HTTPException 400 "Query text is required"), Scenario.after_u2)
  /\ status_of (fst (Server.chat Scenario.env0
                       {| cr_folder_name := "own"; cr_query := "" |} "u1"
                       Scenario.after_u2))
     <> Some 404%Z.
Proof.
  split; [vm_compute; reflexivity|]. split; [reflexivity|].
  simpl. discriminate.
Qed.

(** * What [index_folder] surfaces when it fails *)

(** Whatever goes wrong inside the [try] of [index_folder], the caller sees
    status 500: the handler rewraps every exception, the function's own
    [HTTPException]s included. *)
Lemma index_folder_failure_is_500 env request user_id w e :
  fst (Server.index_folder env request user_id w) = Raise e ->
  exists detail, e = HTTPException 500 detail.
Proof.
  unfold Server.index_folder, catch.
  destruct (bind _ _ w) as [[r|e'] w']; simpl; intros H; [discriminate|].
  unfold raise in H. simpl in H. inversion H. unfold Server.index_error. eauto.
Qed.

(** C4. Evaluated on a folder without files and on a folder whose download
    fails: [index_folder] raises its 404 for the first, yet both requests
    surface status 500; the two causes differ only in the detail text. *)
Theorem index_folder_not_found_surfaces_as_500 :
  fst (Server.index_folder Scenario.env0 {| ir_folder_name := "nothing" |} "u1"
         Scenario.boot)
  = Raise (HTTPException 500
             ("Error indexing folder: 404: No files found in folder 'nothing'. "
              ++ "Path checked: u1/nothing. "
              ++ "Make sure files are uploaded to the correct location."))
  /\ fst (Server.index_folder Scenario.env0 {| ir_folder_name := "broken" |} "u1"
            Scenario.boot)
     = Raise (HTTPException 500 "Error indexing folder: StorageException").
Proof. split; vm_compute; reflexivity. Qed.

(** C5. Evaluated on a folder whose only PDF has no pages: the build stops at
    the "No content extracted" check and the index directory is left as it
    was, but the 400 raised there surfaces as status 500. A folder whose
    pages are blank is not caught by that check: it yields no chunk, and the
    build fails where the vector store is built, with status 500 again and
    nothing written. *)
Theorem index_folder_empty_corpus_surfaces_as_500 :
  let run := Server.index_folder Scenario.env0 {| ir_folder_name := "blank" |} "u1"
               Scenario.after_u2 in
  let run' := Server.index_folder Scenario.env0 {| ir_folder_name := "white" |} "u1"
                Scenario.after_u2 in
  fst run
  = Raise (HTTPException 500 "Error indexing folder: 400: No content extracted from PDFs")
  /\ w_fs (snd run) = w_fs Scenario.after_u2
  /\ Forall (fun e => is_index_access e = false) (w_trace (snd run))
  /\ fst run' = Raise (HTTPException 500 "Error indexing folder: list index out of range")
  /\ w_fs (snd run') = w_fs Scenario.after_u2
  /\ Forall (fun e => is_index_access e = false) (w_trace (snd run')).
Proof.
  cbv zeta. repeat split; vm_compute; try reflexivity; repeat constructor.
Qed.

(** * Where [chat] looks for the index *)

(** C1. Evaluated after [u2] has indexed [notes] and [u1] has indexed [own]:
    tenant [u1] sends the folder name [../u2/notes]. The path [chat] builds
    for it names the directory that [u2]'s build wrote, the existence check
    passes, and the answer is synthesised from [u2]'s chunk. A folder name
    that starts with a slash does the same: [os.path.join] drops
    [INDEX_DIR] and the user directory in front of it. *)
Theorem chat_folder_name_reaches_other_tenant :
  let theirs := Scenario.page Scenario.secret_text "/tmp/tmp0001.pdf" in
  let leaked := {| answer := prompt_head ++ Scenario.secret_text ++ prompt_mid
                             ++ "what is in here?" ++ prompt_tail;
                   chat_folder := "../u2/notes";
                   chat_user_id := "u1" |} in
  Server.index_path_of "u1" "../u2/notes" = "./data/indexes/u1/../u2/notes_faiss"
  /\ Fs.resolve (w_fs Scenario.after_both) (Server.index_path_of "u1" "../u2/notes")
     = Fs.resolve (w_fs Scenario.after_both) (Server.index_path_of "u2" "notes")
  /\ committed (w_fs Scenario.after_both) (Server.index_path_of "u1" "../u2/notes")
     = (Some (Fs.FaissIndex [[38%Z]]), Some (Fs.DocStore [theirs]))
  /\ fst (Server.chat Scenario.env0 Scenario.crossing "u1" Scenario.after_both)
     = Ok leaked
  /\ Server.index_path_of "u1" "/srv/data/indexes/u2/notes"
     = "/srv/data/indexes/u2/notes_faiss"
  /\ fst (Server.chat Scenario.env0 Scenario.rooted "u1" Scenario.after_u2)
     = Ok {| answer := answer leaked;
             chat_folder := "/srv/data/indexes/u2/notes";
             chat_user_id := "u1" |}.
Proof. cbv zeta. repeat split; vm_compute; reflexivity. Qed.

(** * The prompt and the provider call of [chat] *)

Lemma append_assoc (a b c : string) : (a ++ b) ++ c = a ++ (b ++ c).
Proof.
  induction a as [|x a IH]; [reflexivity|].
  change (String x ((a ++ b) ++ c) = String x (a ++ (b ++ c))). by rewrite IH.
Qed.

Lemma append_empty_r (a : string) : a ++ "" = a.
Proof.
  induction a as [|x a IH]; [reflexivity|].
  change (String x (a ++ "") = String x a). by rewrite IH.
Qed.

Lemma length_append (a b : string) :
  String.length (a ++ b) = String.length a + String.length b.
Proof.
  induction a as [|c a IH]; [reflexivity|].
  change (S (String.length (a ++ b)) = S (String.length a + String.length b)).
  by rewrite IH.
Qed.

Lemma occurs_in_here (x a b : string) : PyStr.occurs_in x (a ++ x ++ b).
Proof. by exists a, b. Qed.

Lemma occurs_in_app_r (x a s : string) :
  PyStr.occurs_in x s -> PyStr.occurs_in x (a ++ s).
Proof.
  intros (pre & post & ->). exists (a ++ pre), post. by rewrite append_assoc.
Qed.

Lemma occurs_in_app_l (x s b : string) :
  PyStr.occurs_in x s -> PyStr.occurs_in x (s ++ b).
Proof.
  intros (pre & post & ->). exists pre, (post ++ b).
  by rewrite !append_assoc.
Qed.

Lemma occurs_in_refl (x : string) : PyStr.occurs_in x x.
Proof.
  exists "", "". change (x = x ++ ""). by rewrite append_empty_r.
Qed.

(** Every joined text can be found in the join. *)
Lemma occurs_in_join (sep x : string) (parts : list string) :
  In x parts -> PyStr.occurs_in x (PyStr.join sep parts).
Proof.
  induction parts as [|p rest IH]; intros Hin; [destruct Hin|].
  destruct rest as [|p' rest'].
  - destruct Hin as [->|[]]. apply occurs_in_refl.
  - change (PyStr.join sep (p :: p' :: rest'))
      with (p ++ sep ++ PyStr.join sep (p' :: rest')).
    destruct Hin as [->|Hin].
    + apply occurs_in_app_l, occurs_in_refl.
    + apply occurs_in_app_r, occurs_in_app_r, IH, Hin.
Qed.

(** Filling the two fields of the template: the context and the question
    land between the three literal stretches, once each. *)
Lemma format_prompt (c q : string) :
  Prompt.format Server.prompt_template [("context", c); ("question", q)]
  = Ok (prompt_head ++ c ++ prompt_mid ++ q ++ prompt_tail).
Proof. vm_compute. reflexivity. Qed.

Lemma prompt_tail_instructions :
  exists a b c,
    prompt_tail
    = a ++ Server.grounding_instruction ++ b ++ Server.sentinel_instruction ++ c.
Proof.
  exists (PyStr.nl ++ PyStr.nl ++ "Instructions:" ++ PyStr.nl), PyStr.nl.
  eexists. vm_compute. reflexivity.
Qed.

Lemma bind_ok {A B} (m : M A) (k : A -> M B) w b w' :
  bind m k w = (Ok b, w') ->
  exists a w1, m w = (Ok a, w1) /\ k a w1 = (Ok b, w').
Proof.
  unfold bind. destruct (m w) as [[a|e] w1]; intros H; [eauto|discriminate].
Qed.

Lemma emit_run e w : emit e w = (Ok tt, log [e] w).
Proof. reflexivity. Qed.

Lemma read_file_ok env p w c w' :
  read_file env p w = (Ok c, w') ->
  Fs.read (w_fs w) p = Some c /\ w' = log [ReadFile p] w.
Proof.
  unfold read_file. intros H.
  apply bind_ok in H as (u & w1 & He & H). rewrite emit_run in He.
  injection He as _ <-.
  apply bind_ok in H as (fs & w2 & Hg & H). unfold get_fs in Hg.
  injection Hg as <- <-.
  destruct (disk_ok env (OpRead p)); [|discriminate].
  match type of H with
  | context [Fs.read ?f ?q] => destruct (Fs.read f q) as [c'|] eqn:R
  end; [|discriminate].
  unfold ret in H. injection H as <- <-. split; reflexivity.
Qed.

Lemma load_local_ok env folder w vs w' :
  FAISS.load_local env folder w = (Ok vs, w') ->
  Fs.read (w_fs w) (Fs.child folder "index.faiss")
    = Some (Fs.FaissIndex (FAISS.vs_index vs))
  /\ Fs.read (w_fs w) (Fs.child folder "index.pkl")
    = Some (Fs.DocStore (FAISS.vs_docstore vs))
  /\ w' = log [ReadFile (Fs.child folder "index.faiss");
               ReadFile (Fs.child folder "index.pkl")] w.
Proof.
  unfold FAISS.load_local. intros H.
  apply bind_ok in H as (c1 & w1 & H1 & H).
  apply read_file_ok in H1 as [R1 ->].
  destruct c1 as [vectors| |]; try discriminate.
  apply bind_ok in H as (c2 & w2 & H2 & H).
  apply read_file_ok in H2 as [R2 ->].
  destruct c2 as [|docs|]; try discriminate.
  unfold ret in H. injection H as <- <-. simpl.
  rewrite log_log. auto.
Qed.

Lemma qa_run_ok env vs query w ans w' :
  Server.qa_run env vs query w = (Ok ans, w') ->
  exists qv docs,
    embed_query env Server.embedding_model query = Ok qv
    /\ FAISS.fetch (FAISS.vs_docstore vs)
         (Retriever.retrieve (similarity env) (FAISS.entries vs) qv
            Server.search_k Server.search_fetch_k) = Ok docs
    /\ let prompt := prompt_head
                     ++ PyStr.join (PyStr.nl ++ PyStr.nl) (map page_content docs)
                     ++ prompt_mid ++ query ++ prompt_tail in
       generate env Server.llm prompt = Ok ans
       /\ w' = log [EmbedQuery query; Generate Server.llm prompt] w.
Proof.
  unfold Server.qa_run, Server.retrieve_context, FAISS.similarity_search. intros H.
  apply bind_ok in H as (docs & w1 & Hd & H).
  apply bind_ok in Hd as (u & w2 & He & Hd). rewrite emit_run in He.
  injection He as _ <-.
  apply bind_ok in Hd as (qv & w3 & Hq & Hd). unfold lift in Hq, Hd.
  injection Hq as Hq <-. injection Hd as Hf <-.
  rewrite format_prompt in H.
  apply bind_ok in H as (prompt & w4 & Hp & H). unfold lift in Hp.
  injection Hp as <- <-.
  apply bind_ok in H as (u' & w5 & He & H). rewrite emit_run in He.
  injection He as _ <-. unfold lift in H. injection H as Hg <-.
  exists qv, docs. cbv zeta. rewrite log_log. auto.
Qed.

Lemma path_exists_run p w :
  path_exists p w = (Ok (Fs.exists_ (w_fs w) p), log [PathExists p] w).
Proof. reflexivity. Qed.

Lemma catch_ok {A} (m : M A) (h : exn -> M A) w a w' :
  (forall e w1, fst (h e w1) <> Ok a) ->
  catch m h w = (Ok a, w') -> m w = (Ok a, w').
Proof.
  unfold catch. intros Hh. destruct (m w) as [[a'|e] w1]; intros H; [exact H|].
  exfalso. apply (Hh e w1). by rewrite H.
Qed.

(** C9. For every answered query: the generation provider is called once,
    with the [ChatGroq] settings whose temperature is 0, and the prompt it
    receives is the template around the retrieved chunk texts (joined by
    blank lines) and the question; so it holds every retrieved chunk text,
    the question, the instruction to answer only from the context, and the
    instruction to reply with the fixed sentinel otherwise. The answer
    returned is what the provider replied to that prompt. *)
Theorem chat_prompt_is_grounded env request user_id w resp w' :
  Server.chat env request user_id w = (Ok resp, w') ->
  exists vs qv docs prompt,
    let index_path := Server.index_path_of user_id (cr_folder_name request) in
    Fs.read (w_fs w) (Fs.child index_path "index.faiss")
      = Some (Fs.FaissIndex (FAISS.vs_index vs))
    /\ Fs.read (w_fs w) (Fs.child index_path "index.pkl")
       = Some (Fs.DocStore (FAISS.vs_docstore vs))
    /\ embed_query env Server.embedding_model (cr_query request) = Ok qv
    /\ FAISS.fetch (FAISS.vs_docstore vs)
         (Retriever.retrieve (similarity env) (FAISS.entries vs) qv
            Server.search_k Server.search_fetch_k) = Ok docs
    /\ prompt = prompt_head
                ++ PyStr.join (PyStr.nl ++ PyStr.nl) (map page_content docs)
                ++ prompt_mid ++ cr_query request ++ prompt_tail
    /\ w' = log [PathExists index_path;
                 ReadFile (Fs.child index_path "index.faiss");
                 ReadFile (Fs.child index_path "index.pkl");
                 EmbedQuery (cr_query request);
                 Generate Server.llm prompt] w
    /\ generate env Server.llm prompt = Ok (answer resp)
    /\ temperature Server.llm = 0%Z
    /\ (forall d, In d docs -> PyStr.occurs_in (page_content d) prompt)
    /\ PyStr.occurs_in (cr_query request) prompt
    /\ PyStr.occurs_in Server.grounding_instruction prompt
    /\ PyStr.occurs_in Server.sentinel_instruction prompt.
Proof.
  intros H. unfold Server.chat in H.
  destruct (String.eqb (cr_query request) ""); [discriminate|].
  set (ip := Server.index_path_of user_id (cr_folder_name request)) in *.
  apply bind_ok in H as (indexed & w1 & Hx & H).
  rewrite path_exists_run in Hx. injection Hx as <- <-.
  destruct (Fs.exists_ (w_fs w) ip); [|discriminate]. cbn [negb] in H.
  apply catch_ok in H; [|intros e w2; unfold raise; simpl; discriminate].
  unfold Server.chat_body in H.
  apply bind_ok in H as (vs & w2 & Hl & H).
  apply load_local_ok in Hl as (R1 & R2 & ->).
  apply bind_ok in H as (ans & w3 & Hq & H).
  apply qa_run_ok in Hq as (qv & docs & Eq & Ef & Eg & ->).
  unfold ret in H. injection H as <- <-.
  exists vs, qv, docs. eexists. cbv zeta.
  split; [exact R1|]. split; [exact R2|]. split; [exact Eq|]. split; [exact Ef|].
  split; [reflexivity|]. split; [by rewrite !log_log|]. split; [exact Eg|].
  split; [reflexivity|].
  destruct prompt_tail_instructions as (a & b & c & Ht).
  repeat split.
  - intros d Hd. apply occurs_in_app_r, occurs_in_app_l.
    apply occurs_in_join, in_map, Hd.
  - do 3 apply occurs_in_app_r. apply occurs_in_app_l, occurs_in_refl.
  - do 4 apply occurs_in_app_r. rewrite Ht.
    apply occurs_in_app_r, occurs_in_app_l, occurs_in_refl.
  - do 4 apply occurs_in_app_r. rewrite Ht.
    do 3 apply occurs_in_app_r. apply occurs_in_app_l, occurs_in_refl.
Qed.

Lemma chat_prompt_is_grounded_witness :
  exists vs qv docs prompt,
    committed (w_fs Scenario.after_u2) "./data/indexes/u2/notes_faiss"
    = (Some (Fs.FaissIndex (FAISS.vs_index vs)),
       Some (Fs.DocStore (FAISS.vs_docstore vs)))
    /\ qv = [5%Z]
    /\ docs = [Scenario.page Scenario.secret_text "/tmp/tmp0001.pdf"]
    /\ prompt = prompt_head ++ Scenario.secret_text ++ prompt_mid ++ "what?" ++ prompt_tail
    /\ PyStr.occurs_in Scenario.secret_text prompt
    /\ PyStr.occurs_in Server.sentinel_instruction prompt.
Proof.
  destruct (chat_prompt_is_grounded Scenario.env0
              {| cr_folder_name := "notes"; cr_query := "what?" |} "u2"
              Scenario.after_u2
              {| answer := prompt_head ++ Scenario.secret_text ++ prompt_mid
                           ++ "what?" ++ prompt_tail;
                 chat_folder := "notes"; chat_user_id := "u2" |}
              (log [PathExists "./data/indexes/u2/notes_faiss";
                    ReadFile "./data/indexes/u2/notes_faiss/index.faiss";
                    ReadFile "./data/indexes/u2/notes_faiss/index.pkl";
                    EmbedQuery "what?";
                    Generate Server.llm
                      (prompt_head ++ Scenario.secret_text ++ prompt_mid
                       ++ "what?" ++ prompt_tail)] Scenario.after_u2))
    as (vs & qv & docs & prompt & R1 & R2 & Eq & Ef & Hp & _ & _ & _ & Hd & _ & _ & Hs).
  - vm_compute. reflexivity.
  - exists vs, qv, docs, prompt. cbv zeta in *.
    assert (Hvs : vs = {| FAISS.vs_index := [[38%Z]];
                          FAISS.vs_docstore :=
                            [Scenario.page Scenario.secret_text "/tmp/tmp0001.pdf"] |}).
    { destruct vs as [ix ds]. simpl in R1, R2.
      vm_compute in R1. vm_compute in R2.
      injection R1 as <-. injection R2 as <-. reflexivity. }
    subst vs.
    assert (Hqv : qv = [5%Z]) by (vm_compute in Eq; injection Eq as <-; reflexivity).
    subst qv.
    assert (Hdocs : docs = [Scenario.page Scenario.secret_text "/tmp/tmp0001.pdf"])
      by (vm_compute in Ef; injection Ef as <-; reflexivity).
    subst docs.
    split; [vm_compute; reflexivity|]. split; [reflexivity|]. split; [reflexivity|].
    split; [exact Hp|].
    split; [apply (Hd (Scenario.page Scenario.secret_text "/tmp/tmp0001.pdf"));
            left; reflexivity|exact Hs].
Defined.

(** * Retrieval *)

Section Ranking.
Context {A : Type}.
Implicit Types (x : A * Z) (l : list (A * Z)).



End Ranking.












(** * The chunker *)



























Section Packing.

Variable cfg : Splitter.config.

















End Packing.

Section Regrouping.

Variable cfg : Splitter.config.















End Regrouping.





(** * Facts about the file system *)

Lemma dirs_le_refl ns : dirs_le ns ns.
Proof. by intros p. Qed.

Lemma dirs_le_trans ns1 ns2 ns3 : dirs_le ns1 ns2 -> dirs_le ns2 ns3 -> dirs_le ns1 ns3.
Proof. intros H12 H23 p Hp. by apply H23, H12. Qed.

Lemma dirs_le_insert_dir (ns : gmap Fs.path Fs.node) p :
  dirs_le ns (<[p := Fs.Dir]> ns).
Proof.
  intros q Hq. destruct (decide (p = q)) as [->|Hne].
  - by rewrite lookup_insert_eq.
  - by rewrite lookup_insert_ne.
Qed.

Lemma dirs_le_insert_file (ns : gmap Fs.path Fs.node) p c :
  ns !! p <> Some Fs.Dir -> dirs_le ns (<[p := Fs.File c]> ns).
Proof.
  intros Hp q Hq. destruct (decide (p = q)) as [->|Hne]; [contradiction|].
  by rewrite lookup_insert_ne.
Qed.

Lemma is_dir_mono ns ns' p : dirs_le ns ns' -> Fs.is_dir ns p = true -> Fs.is_dir ns' p = true.
Proof.
  intros Hle. unfold Fs.is_dir. destruct p as [|x p]; [done|].
  destruct (ns !! (x :: p)) as [[|c]|] eqn:E; intros H; try discriminate H.
  by rewrite (Hle _ E).
Qed.

(** Resolution only looks at directories, so it survives as long as they do. *)
Lemma walk_stable ns ns' comps : forall cur p,
  dirs_le ns ns' -> Fs.walk ns cur comps = Some p -> Fs.walk ns' cur comps = Some p.
Proof.
  induction comps as [|c rest IH]; intros cur p Hle; simpl; [done|].
  destruct (Fs.is_dot c); [by apply IH|].
  destruct (String.eqb c ".."); [by apply IH|].
  destruct rest as [|c' rest']; [done|].
  destruct (Fs.is_dir ns (cur ++ [c])%list) eqn:Hd; [|discriminate].
  rewrite (is_dir_mono _ _ _ Hle Hd). by apply IH.
Qed.

Lemma walk_create_mono comps : forall ns cur ns' p,
  Fs.walk_create ns cur comps = Some (ns', p) -> dirs_le ns ns'.
Proof.
  induction comps as [|c rest IH]; intros ns cur ns' p; simpl.
  - intros [= <- _]. apply dirs_le_refl.
  - destruct (Fs.is_dot c); [apply IH|].
    destruct (String.eqb c ".."); [apply IH|].
    destruct (ns !! (cur ++ [c])%list) as [[|f]|] eqn:E; [apply IH|discriminate|].
    intros H. eapply dirs_le_trans; [apply dirs_le_insert_dir|]. eapply IH, H.
Qed.

(** Once the directories of a path have been made, making them again
    changes nothing, whatever else has been added since. *)
Lemma walk_create_stable comps : forall ns cur ns1 p ns2,
  Fs.walk_create ns cur comps = Some (ns1, p) ->
  dirs_le ns1 ns2 ->
  Fs.walk_create ns2 cur comps = Some (ns2, p).
Proof.
  induction comps as [|c rest IH]; intros ns cur ns1 p ns2; simpl.
  - by intros [= <- <-] _.
  - destruct (Fs.is_dot c); [apply IH|].
    destruct (String.eqb c ".."); [apply IH|].
    destruct (ns !! (cur ++ [c])%list) as [[|f]|] eqn:E; [|discriminate|].
    + intros H Hle. pose proof (walk_create_mono _ _ _ _ _ H) as Hm.
      rewrite (Hle _ (Hm _ E)). by eapply IH.
    + intros H Hle. pose proof (walk_create_mono _ _ _ _ _ H) as Hm.
      assert (Hd : ns2 !! (cur ++ [c])%list = Some Fs.Dir).
      { apply Hle, Hm. by rewrite lookup_insert_eq. }
      rewrite Hd. by eapply IH.
Qed.

Lemma makedirs_cwd fs s fs' : Fs.makedirs fs s = Some fs' -> Fs.cwd fs' = Fs.cwd fs.
Proof.
  unfold Fs.makedirs. destruct (Fs.walk_create _ _ _) as [[ns p]|]; [|discriminate].
  by intros [= <-].
Qed.

Lemma makedirs_mono fs s fs' :
  Fs.makedirs fs s = Some fs' -> dirs_le (Fs.nodes fs) (Fs.nodes fs').
Proof.
  unfold Fs.makedirs.
  destruct (Fs.walk_create _ _ _) as [[ns p]|] eqn:E; [|discriminate].
  intros [= <-]. simpl. eapply walk_create_mono, E.
Qed.

Lemma start_cwd fs fs' s : Fs.cwd fs' = Fs.cwd fs -> Fs.start fs' s = Fs.start fs s.
Proof. unfold Fs.start. by intros ->. Qed.

Lemma makedirs_again fs s fs1 fs2 :
  Fs.makedirs fs s = Some fs1 ->
  Fs.cwd fs2 = Fs.cwd fs ->
  dirs_le (Fs.nodes fs1) (Fs.nodes fs2) ->
  Fs.makedirs fs2 s = Some fs2.
Proof.
  unfold Fs.makedirs.
  destruct (Fs.walk_create (Fs.nodes fs) _ _) as [[ns p]|] eqn:E; [|discriminate].
  intros [= <-] Hcwd Hle. simpl in Hle.
  rewrite (start_cwd _ _ _ Hcwd), (walk_create_stable _ _ _ _ _ _ E Hle).
  by destruct fs2.
Qed.

Lemma resolve_stable fs fs' s p :
  Fs.cwd fs' = Fs.cwd fs -> dirs_le (Fs.nodes fs) (Fs.nodes fs') ->
  Fs.resolve fs s = Some p -> Fs.resolve fs' s = Some p.
Proof.
  unfold Fs.resolve. intros Hcwd Hle. rewrite (start_cwd _ _ _ Hcwd).
  by apply walk_stable.
Qed.

(** What a successful write did. *)
Lemma write_inv fs s c fs' :
  Fs.write fs s c = Some fs' ->
  exists p,
    Fs.resolve fs s = Some p
    /\ p <> []
    /\ Fs.is_dir (Fs.nodes fs) (Fs.parent p) = true
    /\ Fs.nodes fs !! p <> Some Fs.Dir
    /\ fs' = {| Fs.cwd := Fs.cwd fs; Fs.nodes := <[p := Fs.File c]> (Fs.nodes fs) |}.
Proof.
  unfold Fs.write. destruct (Fs.resolve fs s) as [p|]; [|discriminate].
  destruct (Fs.is_dir (Fs.nodes fs) (Fs.parent p)) eqn:Hd; [|discriminate].
  destruct p as [|x p]; [discriminate|].
  destruct (Fs.nodes fs !! (x :: p)) as [[|f]|] eqn:E; [discriminate| |];
    intros [= <-]; exists (x :: p); rewrite E; repeat split; congruence.
Qed.

Lemma write_cwd fs s c fs' : Fs.write fs s c = Some fs' -> Fs.cwd fs' = Fs.cwd fs.
Proof. intros H. apply write_inv in H as (p & _ & _ & _ & _ & ->). reflexivity. Qed.

Lemma write_mono fs s c fs' :
  Fs.write fs s c = Some fs' -> dirs_le (Fs.nodes fs) (Fs.nodes fs').
Proof.
  intros H. apply write_inv in H as (p & _ & _ & _ & Hp & ->). simpl.
  by apply dirs_le_insert_file.
Qed.

Lemma read_after_write fs s c fs' : Fs.write fs s c = Some fs' -> Fs.read fs' s = Some c.
Proof.
  intros H. pose proof (write_cwd _ _ _ _ H) as Hcwd.
  pose proof (write_mono _ _ _ _ H) as Hle.
  apply write_inv in H as (p & Hr & _ & _ & _ & ->).
  unfold Fs.read. rewrite (resolve_stable _ _ _ _ Hcwd Hle Hr). simpl.
  by rewrite lookup_insert_eq.
Qed.

(** Writing what the file already holds changes nothing. *)
Lemma write_again fs s c fs1 fs2 :
  Fs.write fs s c = Some fs1 ->
  Fs.cwd fs2 = Fs.cwd fs ->
  dirs_le (Fs.nodes fs1) (Fs.nodes fs2) ->
  Fs.read fs2 s = Some c ->
  Fs.write fs2 s c = Some fs2.
Proof.
  intros H Hcwd Hle Hread.
  pose proof (write_mono _ _ _ _ H) as Hle1.
  apply write_inv in H as (p & Hr & Hne & Hd & _ & _).
  assert (Hle2 : dirs_le (Fs.nodes fs) (Fs.nodes fs2)) by (eapply dirs_le_trans; eauto).
  pose proof (resolve_stable _ _ _ _ Hcwd Hle2 Hr) as Hr2.
  unfold Fs.read in Hread. rewrite Hr2 in Hread.
  destruct (Fs.nodes fs2 !! p) as [[|c']|] eqn:E; try discriminate.
  injection Hread as ->.
  unfold Fs.write. rewrite Hr2, (is_dir_mono _ _ _ Hle2 Hd).
  destruct p as [|x p]; [contradiction|].
  rewrite E, insert_id; [|exact E]. by destruct fs2.
Qed.

Lemma split_char_nonempty c s : PyStr.split_char c s <> [].
Proof.
  destruct s as [|d r]; simpl; [discriminate|].
  destruct (Ascii.eqb d c); [discriminate|].
  destruct (PyStr.split_char c r); discriminate.
Qed.

Lemma split_char_app c a b :
  PyStr.split_char c (a ++ String c b)
  = (PyStr.split_char c a ++ PyStr.split_char c b)%list.
Proof.
  induction a as [|d a IH].
  - change (PyStr.split_char c (String c b) = ("" :: PyStr.split_char c b)).
    simpl. by rewrite Ascii.eqb_refl.
  - change (PyStr.split_char c (String d (a ++ String c b))
            = (PyStr.split_char c (String d a) ++ PyStr.split_char c b)%list).
    simpl. destruct (Ascii.eqb d c); rewrite IH; [reflexivity|].
    pose proof (split_char_nonempty c a) as Hne.
    destruct (PyStr.split_char c a); [contradiction|reflexivity].
Qed.

Lemma components_child dir name :
  Fs.components (Fs.child dir name)
  = if String.eqb dir "" then Fs.components name
    else (Fs.components dir ++ Fs.components name)%list.
Proof.
  unfold Fs.child, Fs.components. destruct (String.eqb dir ""); [reflexivity|].
  apply (split_char_app "/" dir name).
Qed.

(** A path that ends in a plain name resolves to a place of that name. *)
Lemma walk_last ns name : forall comps cur p,
  Fs.is_dot name = false -> String.eqb name ".." = false ->
  Fs.walk ns cur (comps ++ [name])%list = Some p -> last p = Some name.
Proof.
  induction comps as [|c rest IH]; intros cur p Hdot Hup; simpl.
  - rewrite Hdot, Hup. intros [= <-]. by rewrite last_snoc.
  - destruct (Fs.is_dot c); [by apply IH|].
    destruct (String.eqb c ".."); [by apply IH|].
    pose proof (IH (cur ++ [c])%list p Hdot Hup) as IH'. clear IH.
    destruct (rest ++ [name])%list eqn:E; [by destruct rest|].
    destruct (Fs.is_dir ns (cur ++ [c])%list); [exact IH'|discriminate].
Qed.

Lemma resolve_child_last fs dir name p :
  Fs.components name = [name] ->
  Fs.is_dot name = false -> String.eqb name ".." = false ->
  Fs.resolve fs (Fs.child dir name) = Some p -> last p = Some name.
Proof.
  intros Hc Hdot Hup. unfold Fs.resolve. rewrite components_child, Hc.
  destruct (String.eqb dir "").
  - apply (walk_last _ name []); assumption.
  - apply walk_last; assumption.
Qed.

(** A write leaves every other file as it was. *)
Lemma read_write_other fs s c fs' s' c' :
  Fs.write fs s c = Some fs' ->
  Fs.read fs s' = Some c' ->
  (forall p p', Fs.resolve fs s = Some p -> Fs.resolve fs s' = Some p' -> p <> p') ->
  Fs.read fs' s' = Some c'.
Proof.
  intros H Hread Hne.
  pose proof (write_cwd _ _ _ _ H) as Hcwd.
  pose proof (write_mono _ _ _ _ H) as Hle.
  apply write_inv in H as (p & Hr & _ & _ & _ & ->).
  unfold Fs.read in *.
  destruct (Fs.resolve fs s') as [p'|] eqn:Hr'; [|discriminate].
  rewrite (resolve_stable _ _ _ _ Hcwd Hle Hr'). simpl.
  rewrite lookup_insert_ne; [exact Hread|]. by apply Hne.
Qed.

Lemma index_files_apart fs fs' folder p1 p2 :
  Fs.resolve fs (Fs.child folder "index.faiss") = Some p1 ->
  Fs.resolve fs' (Fs.child folder "index.pkl") = Some p2 ->
  p1 <> p2.
Proof.
  intros H1 H2 ->.
  apply resolve_child_last in H1; [|reflexivity..].
  apply resolve_child_last in H2; [|reflexivity..].
  congruence.
Qed.

(** * Index paths of plain names *)

Lemma eqb_length (a b : string) :
  String.length a <> String.length b -> String.eqb a b = false.
Proof. intros H. apply String.eqb_neq. intros ->. contradiction. Qed.

Lemma append_cancel_r (a b c : string) : a ++ c = b ++ c -> a = b.
Proof.
  revert b. induction a as [|x a IH]; intros [|y b] H.
  - reflexivity.
  - apply (f_equal String.length) in H. rewrite !length_append in H.
    simpl in H. lia.
  - apply (f_equal String.length) in H. rewrite !length_append in H.
    simpl in H. lia.
  - change (String x (a ++ c) = String y (b ++ c)) in H.
    injection H as -> H. by rewrite (IH b H).
Qed.

Lemma substring_last (s : string) :
  String.substring (String.length s - 1) 1 s
  = match last_char s with Some c => String c "" | None => "" end.
Proof.
  induction s as [|c r IH]; [reflexivity|].
  destruct r as [|d r']; [reflexivity|].
  change (last_char (String c (String d r'))) with (last_char (String d r')).
  rewrite <- IH. simpl. by rewrite Nat.sub_0_r.
Qed.

Lemma endswith_slash (x : string) :
  PyStr.endswith x "/" = true -> last_char x = Some "/"%char.
Proof.
  unfold PyStr.endswith. change (String.length "/") with 1.
  destruct (1 <=? String.length x)%nat; [|discriminate].
  rewrite substring_last. destruct (last_char x) as [c|]; [|discriminate].
  intros H. apply String.eqb_eq in H. by injection H as ->.
Qed.

Lemma last_char_app (a s : string) : s <> "" -> last_char (a ++ s) = last_char s.
Proof.
  intros Hs. induction a as [|c a IH]; [reflexivity|].
  change (last_char (String c (a ++ s)) = last_char s).
  destruct (a ++ s) as [|d t] eqn:E.
  - destruct a; [|discriminate E]. by destruct s.
  - exact IH.
Qed.

Lemma no_slash_last (s : string) c :
  no_slash s = true -> last_char s = Some c -> c <> "/"%char.
Proof.
  induction s as [|d r IH]; [discriminate|]. simpl.
  intros [Hd Hr]%andb_prop. destruct r as [|e r'].
  - intros [= <-] ->. by rewrite Ascii.eqb_refl in Hd.
  - by apply IH.
Qed.

Lemma no_slash_endswith (a s : string) :
  no_slash s = true -> s <> "" -> PyStr.endswith (a ++ s) "/" = false.
Proof.
  intros Hs Hne. destruct (PyStr.endswith (a ++ s) "/") eqn:E; [|reflexivity].
  apply endswith_slash in E. rewrite last_char_app in E by exact Hne.
  by destruct (no_slash_last _ _ Hs E).
Qed.

Lemma no_slash_startswith (s : string) :
  no_slash s = true -> PyStr.startswith s "/" = false.
Proof.
  destruct s as [|c r]; [reflexivity|]. cbn [no_slash]. intros [Hc _]%andb_prop.
  unfold PyStr.startswith. cbn [String.prefix].
  destruct (ascii_dec "/" c) as [<-|_]; [|reflexivity].
  by rewrite Ascii.eqb_refl in Hc.
Qed.

Lemma no_slash_split (s : string) : no_slash s = true -> PyStr.split_char "/" s = [s].
Proof.
  induction s as [|c r IH]; [reflexivity|]. simpl.
  intros [Hc Hr]%andb_prop. apply negb_true_iff in Hc. rewrite Hc, (IH Hr).
  reflexivity.
Qed.

Lemma no_slash_app (a b : string) :
  no_slash a = true -> no_slash b = true -> no_slash (a ++ b) = true.
Proof.
  intros Ha Hb. induction a as [|c a IH]; [exact Hb|].
  simpl in Ha. apply andb_prop in Ha as [Hc Ha].
  change (negb (Ascii.eqb c "/") && no_slash (a ++ b) = true).
  by rewrite Hc, (IH Ha).
Qed.

Lemma plain_inv (s : string) :
  plain s = true ->
  no_slash s = true /\ Fs.is_dot s = false /\ String.eqb s ".." = false /\ s <> "".
Proof.
  unfold plain. intros [[H1 H2]%andb_prop H3]%andb_prop.
  apply negb_true_iff in H2, H3. repeat split; try assumption.
  intros ->. discriminate.
Qed.

Lemma faiss_name (f : string) :
  no_slash f = true ->
  no_slash (f ++ "_faiss") = true
  /\ Fs.is_dot (f ++ "_faiss") = false
  /\ String.eqb (f ++ "_faiss") ".." = false.
Proof.
  intros Hf. split; [by apply no_slash_app|].
  unfold Fs.is_dot.
  rewrite !eqb_length; [auto| |  |]; rewrite length_append; simpl; lia.
Qed.

(** For plain names the index path has no surprises. *)
Lemma index_path_plain user_id folder_name :
  plain user_id = true -> no_slash folder_name = true ->
  Server.index_path_of user_id folder_name
  = "./data/indexes/" ++ user_id ++ "/" ++ folder_name ++ "_faiss".
Proof.
  intros (Hu & _ & _ & Hne)%plain_inv Hf.
  destruct (faiss_name _ Hf) as (Hff & _ & _).
  assert (H1 : OsPath.join_step "./data/indexes" user_id = "./data/indexes/" ++ user_id).
  { unfold OsPath.join_step, OsPath.sep. by rewrite (no_slash_startswith _ Hu). }
  assert (H2 : OsPath.join_step ("./data/indexes/" ++ user_id) (folder_name ++ "_faiss")
               = ("./data/indexes/" ++ user_id) ++ "/" ++ folder_name ++ "_faiss").
  { unfold OsPath.join_step, OsPath.sep.
    by rewrite (no_slash_startswith _ Hff), (no_slash_endswith _ _ Hu Hne). }
  unfold Server.index_path_of, OsPath.join, Server.INDEX_DIR. cbn [fold_left].
  by rewrite H1, H2, append_assoc.
Qed.

Lemma components_index_path user_id folder_name :
  plain user_id = true -> no_slash folder_name = true ->
  Fs.components (Server.index_path_of user_id folder_name)
  = ["."; "data"; "indexes"; user_id; folder_name ++ "_faiss"].
Proof.
  intros Hu Hf. rewrite (index_path_plain _ _ Hu Hf).
  apply plain_inv in Hu as (Hu & _). destruct (faiss_name _ Hf) as (Hff & _).
  unfold Fs.components.
  change ("./data/indexes/" ++ user_id ++ "/" ++ folder_name ++ "_faiss")
    with ("./data/indexes" ++ String "/" (user_id ++ String "/" (folder_name ++ "_faiss"))).
  rewrite split_char_app, split_char_app, (no_slash_split _ Hu), (no_slash_split _ Hff).
  reflexivity.
Qed.

(** Where the index of a plain key lives: under the user's own directory,
    in a folder named after the collection. *)
Lemma resolve_index_path fs user_id folder_name p :
  plain user_id = true -> no_slash folder_name = true ->
  Fs.resolve fs (Server.index_path_of user_id folder_name) = Some p ->
  p = (Fs.cwd fs ++ ["data"; "indexes"; user_id; (folder_name ++ "_faiss")%string])%list.
Proof.
  intros Hu Hf. unfold Fs.resolve. rewrite (components_index_path _ _ Hu Hf).
  assert (Hs : Fs.start fs (Server.index_path_of user_id folder_name) = Fs.cwd fs).
  { rewrite (index_path_plain _ _ Hu Hf). reflexivity. }
  rewrite Hs. apply plain_inv in Hu as (_ & Hd & Hup & _).
  destruct (faiss_name _ Hf) as (_ & Hd' & Hup').
  cbn [Fs.walk]. change (Fs.is_dot ".") with true. cbv iota.
  change (Fs.is_dot "data") with false. change (String.eqb "data" "..") with false.
  change (Fs.is_dot "indexes") with false. change (String.eqb "indexes" "..") with false.
  cbv iota. rewrite Hd, Hup, Hd', Hup'.
  repeat match goal with |- context [Fs.is_dir ?n ?q] => destruct (Fs.is_dir n q) end;
    try discriminate.
  intros [= <-]. by rewrite <- !app_assoc.
Qed.

(** Two plain keys never share an index folder. *)
Lemma plain_keys_do_not_collide fs user_id folder_name user_id' folder_name' p :
  plain user_id = true -> no_slash folder_name = true ->
  plain user_id' = true -> no_slash folder_name' = true ->
  Fs.resolve fs (Server.index_path_of user_id folder_name) = Some p ->
  Fs.resolve fs (Server.index_path_of user_id' folder_name') = Some p ->
  user_id = user_id' /\ folder_name = folder_name'.
Proof.
  intros Hu Hf Hu' Hf' H H'.
  apply resolve_index_path in H; [|assumption..].
  apply resolve_index_path in H'; [|assumption..].
  rewrite H in H'. apply app_inv_head in H'. injection H' as -> Hff.
  split; [reflexivity|]. by apply append_cancel_r in Hff.
Qed.

(** * Storing the index *)

Lemma commit_log fs evs1 evs2 w : commit fs evs2 (log evs1 w) = commit fs (evs1 ++ evs2)%list w.
Proof. unfold commit, log. simpl. by rewrite app_assoc. Qed.

Lemma commit_commit fs fs' evs1 evs2 w :
  commit fs' evs2 (commit fs evs1 w) = commit fs' (evs1 ++ evs2)%list w.
Proof. unfold commit. simpl. by rewrite app_assoc. Qed.

Lemma makedirs_run env p w :
  makedirs env p w
  = match (if disk_ok env (OpMakedirs p) then Fs.makedirs (w_fs w) p else None) with
    | Some fs' => (Ok tt, commit fs' [MakeDirs p] w)
    | None => (Raise (os_error p), log [MakeDirs p] w)
    end.
Proof.
  unfold makedirs, bind, emit, get_fs, put_fs, raise. simpl.
  destruct (disk_ok env (OpMakedirs p)); [|reflexivity].
  destruct (Fs.makedirs (w_fs w) p); reflexivity.
Qed.

Lemma write_file_run env p c w :
  write_file env p c w
  = match (if disk_ok env (OpWrite p) then Fs.write (w_fs w) p c else None) with
    | Some fs' => (Ok tt, commit fs' [WriteFile p] w)
    | None => (Raise (os_error p), log [WriteFile p] w)
    end.
Proof.
  unfold write_file, bind, emit, get_fs, put_fs, raise. simpl.
  destruct (disk_ok env (OpWrite p)); [|reflexivity].
  destruct (Fs.write (w_fs w) p c); reflexivity.
Qed.

Lemma makedirs_ok env p w u w' :
  makedirs env p w = (Ok u, w') ->
  disk_ok env (OpMakedirs p) = true
  /\ exists fs', Fs.makedirs (w_fs w) p = Some fs' /\ w' = commit fs' [MakeDirs p] w.
Proof.
  rewrite makedirs_run. destruct (disk_ok env (OpMakedirs p)); [|discriminate].
  destruct (Fs.makedirs (w_fs w) p) as [fs'|]; [|discriminate].
  intros [= _ <-]. eauto.
Qed.

Lemma write_file_ok env p c w u w' :
  write_file env p c w = (Ok u, w') ->
  disk_ok env (OpWrite p) = true
  /\ exists fs', Fs.write (w_fs w) p c = Some fs' /\ w' = commit fs' [WriteFile p] w.
Proof.
  rewrite write_file_run. destruct (disk_ok env (OpWrite p)); [|discriminate].
  destruct (Fs.write (w_fs w) p c) as [fs'|]; [|discriminate].
  intros [= _ <-]. eauto.
Qed.

(** What a successful [index_folder] has done, step by step. *)
Lemma index_folder_ok env request user_id w r w' :
  Server.index_folder env request user_id w = (Ok r, w') ->
  let folder_name := ir_folder_name request in
  let ud := Server.user_dir user_id in
  let sp := Server.save_path folder_name user_id in
  exists b evs fs1 fs2 fs3 fs4,
    (forall w0, Server.build_index env folder_name user_id w0 = (Ok b, log evs w0))
    /\ r = Server.response folder_name b
    /\ disk_ok env (OpMakedirs ud) = true
    /\ Fs.makedirs (w_fs w) ud = Some fs1
    /\ disk_ok env (OpMakedirs sp) = true
    /\ Fs.makedirs fs1 sp = Some fs2
    /\ disk_ok env (OpWrite (Fs.child sp "index.faiss")) = true
    /\ Fs.write fs2 (Fs.child sp "index.faiss")
         (Fs.FaissIndex (FAISS.vs_index (Server.b_vectorstore b))) = Some fs3
    /\ disk_ok env (OpWrite (Fs.child sp "index.pkl")) = true
    /\ Fs.write fs3 (Fs.child sp "index.pkl")
         (Fs.DocStore (FAISS.vs_docstore (Server.b_vectorstore b))) = Some fs4
    /\ w' = commit fs4
              (evs ++ [MakeDirs ud; MakeDirs sp;
                       WriteFile (Fs.child sp "index.faiss");
                       WriteFile (Fs.child sp "index.pkl")])%list w.
Proof.
  intros H. cbv zeta. unfold Server.index_folder in H.
  apply catch_ok in H; [|intros e w1; unfold raise; simpl; discriminate].
  apply bind_ok in H as (b & w1 & Hb & H).
  destruct (oblivious_build_index env (ir_folder_name request) user_id)
    as (rb & evs & Hob).
  rewrite Hob in Hb. injection Hb as -> <-.
  apply bind_ok in H as (u & w2 & Hs & H). unfold ret in H. injection H as <- <-.
  unfold Server.store_index in Hs.
  apply bind_ok in Hs as (u1 & w3 & Hm1 & Hs).
  apply makedirs_ok in Hm1 as (Hd1 & fs1 & Hf1 & ->).
  unfold FAISS.save_local in Hs.
  apply bind_ok in Hs as (u2 & w4 & Hm2 & Hs).
  apply makedirs_ok in Hm2 as (Hd2 & fs2 & Hf2 & ->).
  apply bind_ok in Hs as (u3 & w5 & Hw1 & Hs).
  apply write_file_ok in Hw1 as (Hd3 & fs3 & Hf3 & ->).
  apply write_file_ok in Hs as (Hd4 & fs4 & Hf4 & ->).
  exists b, evs, fs1, fs2, fs3, fs4. simpl in *.
  repeat (split; [assumption || reflexivity|]).
  by rewrite !commit_commit, commit_log.
Qed.

(** After a successful [index_folder] the folder of the key holds the new
    index, both files, and [chat] will find it there. *)
Lemma index_folder_commits env request user_id w r w' :
  Server.index_folder env request user_id w = (Ok r, w') ->
  exists b,
    r = Server.response (ir_folder_name request) b
    /\ committed (w_fs w') (Server.index_path_of user_id (ir_folder_name request))
       = (Some (Fs.FaissIndex (FAISS.vs_index (Server.b_vectorstore b))),
          Some (Fs.DocStore (FAISS.vs_docstore (Server.b_vectorstore b)))).
Proof.
  intros H. apply index_folder_ok in H
    as (b & evs & fs1 & fs2 & fs3 & fs4 & _ & -> & _ & _ & _ & _ & _ & H3 & _ & H4 & ->).
  exists b. split; [reflexivity|].
  unfold committed, commit. cbn [w_fs].
  change (Server.index_path_of user_id (ir_folder_name request))
    with (Server.save_path (ir_folder_name request) user_id).
  rewrite (read_after_write _ _ _ _ H4).
  erewrite read_write_other; [reflexivity|exact H4|eapply read_after_write, H3|].
  intros p p' Hp Hp' ->. eapply index_files_apart; eauto.
Qed.

(** [chat] looks for the index where [index_folder] stores it. *)
Lemma index_path_is_save_path user_id folder_name :
  Server.index_path_of user_id folder_name = Server.save_path folder_name user_id.
Proof. reflexivity. Qed.

(** The calls of the store step, all on the final location: no scratch
    directory is made and nothing is renamed. *)
Lemma store_index_in_place env folder_name user_id b w :
  let sp := Server.save_path folder_name user_id in
  exists evs,
    w_trace (snd (Server.store_index env folder_name user_id b w))
    = (w_trace w ++ evs)%list
    /\ evs `prefix_of` [MakeDirs (Server.user_dir user_id); MakeDirs sp;
                        WriteFile (Fs.child sp "index.faiss");
                        WriteFile (Fs.child sp "index.pkl")].
Proof.
  cbv zeta. unfold Server.store_index, FAISS.save_local, Server.save_path.
  set (ud := Server.user_dir user_id).
  set (sp := OsPath.join ud [folder_name ++ "_faiss"]).
  unfold bind at 1. rewrite makedirs_run.
  destruct (if disk_ok env (OpMakedirs ud) then _ else None) as [fs1|].
  2:{ exists [MakeDirs ud]. split; [reflexivity|]. by eexists. }
  unfold bind at 1. rewrite makedirs_run.
  destruct (if disk_ok env (OpMakedirs sp) then _ else None) as [fs2|].
  2:{ exists [MakeDirs ud; MakeDirs sp]. simpl. rewrite <- app_assoc.
      split; [reflexivity|]. by eexists. }
  unfold bind at 1. rewrite write_file_run.
  destruct (if disk_ok env (OpWrite (Fs.child sp "index.faiss")) then _ else None)
    as [fs3|].
  2:{ exists [MakeDirs ud; MakeDirs sp; WriteFile (Fs.child sp "index.faiss")].
      simpl. rewrite <- !app_assoc. split; [reflexivity|]. by eexists. }
  rewrite write_file_run.
  exists [MakeDirs ud; MakeDirs sp; WriteFile (Fs.child sp "index.faiss");
          WriteFile (Fs.child sp "index.pkl")].
  split; [|by exists []].
  destruct (if disk_ok env (OpWrite (Fs.child sp "index.pkl")) then _ else None);
    simpl; by rewrite <- !app_assoc.
Qed.

(** C2, as the code has it. A build that fails before the index is stored
    (while listing, downloading, parsing, checking for content, chunking or
    embedding) surfaces its failure and leaves the index directory as it
    was, every committed index included. The store step itself is not
    staged: it makes the folder and writes [index.faiss] and then
    [index.pkl] under the final path. *)
Theorem failed_build_before_store_keeps_index env request user_id w e w1 :
  Server.build_index env (ir_folder_name request) user_id w = (Raise e, w1) ->
  Server.index_folder env request user_id w = (Raise (Server.index_error e), w1)
  /\ w_fs w1 = w_fs w
  /\ (forall folder, committed (w_fs w1) folder = committed (w_fs w) folder)
  /\ (forall b w2,
        let sp := Server.save_path (ir_folder_name request) user_id in
        exists evs,
          w_trace (snd (Server.store_index env (ir_folder_name request) user_id b w2))
          = (w_trace w2 ++ evs)%list
          /\ evs `prefix_of` [MakeDirs (Server.user_dir user_id); MakeDirs sp;
                              WriteFile (Fs.child sp "index.faiss");
                              WriteFile (Fs.child sp "index.pkl")]).
Proof.
  intros Hb.
  assert (Hfs : w_fs w1 = w_fs w).
  { destruct (oblivious_build_index env (ir_folder_name request) user_id)
      as (rb & evs & Hob).
    rewrite Hob in Hb. by injection Hb as _ <-. }
  split; [|split; [exact Hfs|split]].
  - unfold Server.index_folder, catch, bind. by rewrite Hb.
  - intros folder. by rewrite Hfs.
  - intros b w2. apply store_index_in_place.
Qed.

Lemma failed_build_before_store_keeps_index_witness :
  Server.index_folder Scenario.env0 {| ir_folder_name := "broken" |} "u1"
    Scenario.after_u2
  = (Raise (HTTPException 500 "Error indexing folder: StorageException"),
     log [StorageList ByKeyword "u1/broken"; StorageDownload "u1/broken/b.pdf"]
       Scenario.after_u2)
  /\ w_fs (log [StorageList ByKeyword "u1/broken"; StorageDownload "u1/broken/b.pdf"]
             Scenario.after_u2)
     = w_fs Scenario.after_u2.
Proof.
  destruct (failed_build_before_store_keeps_index Scenario.env0
              {| ir_folder_name := "broken" |} "u1" Scenario.after_u2
              (Error "StorageException")
              (log [StorageList ByKeyword "u1/broken";
                    StorageDownload "u1/broken/b.pdf"] Scenario.after_u2))
    as (Hrun & Hfs & _).
  - vm_compute. reflexivity.
  - split; [exact Hrun|exact Hfs].
Defined.

(** The claim of C2 as worded fails here: the services of [env1] let a
    rebuild of [u2/notes] get as far as the second file and then refuse it.
    The request fails, and the folder now holds the new [index.faiss] beside
    the old [index.pkl]; it still loads. *)
Lemma failed_store_leaves_mixed_index :
  let before := Scenario.after_u2 in
  let run := Server.index_folder Scenario.env1 {| ir_folder_name := "notes" |} "u2"
               before in
  let sp := Server.save_path "notes" "u2" in
  let old_page := Scenario.page Scenario.secret_text "/tmp/tmp0001.pdf" in
  status_of (fst run) = Some 500%Z
  /\ committed (w_fs before) sp
     = (Some (Fs.FaissIndex [[38%Z]]), Some (Fs.DocStore [old_page]))
  /\ committed (w_fs (snd run)) sp
     = (Some (Fs.FaissIndex [[47%Z]]), Some (Fs.DocStore [old_page]))
  /\ committed (w_fs (snd run)) sp <> committed (w_fs before) sp
  /\ fst (FAISS.load_local Scenario.env0 sp (snd run))
     = Ok {| FAISS.vs_index := [[47%Z]]; FAISS.vs_docstore := [old_page] |}.
Proof.
  cbv zeta.
  assert (H1 : committed (w_fs Scenario.after_u2) (Server.save_path "notes" "u2")
               = (Some (Fs.FaissIndex [[38%Z]]),
                  Some (Fs.DocStore
                          [Scenario.page Scenario.secret_text "/tmp/tmp0001.pdf"])))
    by (vm_compute; reflexivity).
  assert (H2 : committed
                 (w_fs (snd (Server.index_folder Scenario.env1
                               {| ir_folder_name := "notes" |} "u2" Scenario.after_u2)))
                 (Server.save_path "notes" "u2")
               = (Some (Fs.FaissIndex [[47%Z]]),
                  Some (Fs.DocStore
                          [Scenario.page Scenario.secret_text "/tmp/tmp0001.pdf"])))
    by (vm_compute; reflexivity).
  split; [vm_compute; reflexivity|]. split; [exact H1|]. split; [exact H2|].
  split; [rewrite H1, H2; discriminate|].
  vm_compute; reflexivity.
Qed.

(** * Two builds of one key at once *)

(** The steps, run in a row by one handler, are [index_folder]. *)
Lemma alone_is_index_folder env request user_id w :
  Concurrent.t_pc (fst (Concurrent.alone env request user_id w))
  = Concurrent.Finished (fst (Server.index_folder env request user_id w))
  /\ snd (Concurrent.alone env request user_id w)
     = snd (Server.index_folder env request user_id w).
Proof.
  unfold Concurrent.alone, Server.index_folder, Server.store_index, FAISS.save_local,
    catch, bind, ret, raise.
  unfold Concurrent.steps, Concurrent.advance, Concurrent.step, Concurrent.guarded.
  cbn [Concurrent.spawn Concurrent.t_pc Concurrent.t_request Concurrent.t_user
       Concurrent.t_env].
  unfold Server.save_path.
  destruct (Server.build_index env (ir_folder_name request) user_id w)
    as [[b|e] w1]; [|split; reflexivity].
  cbn [Concurrent.t_pc Concurrent.t_request Concurrent.t_user Concurrent.t_env].
  destruct (makedirs env (Server.user_dir user_id) w1)
    as [[u1|e] w2]; [|split; reflexivity].
  cbn [Concurrent.t_pc Concurrent.t_request Concurrent.t_user Concurrent.t_env].
  destruct (makedirs env (OsPath.join (Server.user_dir user_id)
                            [ir_folder_name request ++ "_faiss"]) w2)
    as [[u2|e] w3]; [|split; reflexivity].
  cbn [Concurrent.t_pc Concurrent.t_request Concurrent.t_user Concurrent.t_env].
  destruct (write_file env _ (Fs.FaissIndex _) w3)
    as [[u3|e] w4]; [|split; reflexivity].
  cbn [Concurrent.t_pc Concurrent.t_request Concurrent.t_user Concurrent.t_env].
  destruct (write_file env _ (Fs.DocStore _) w4)
    as [[u4|e] w5]; split; reflexivity.
Qed.











(** * More of [server.py]: what the handlers log *)

Section Logs.

Variable P : list event -> Prop.
Hypothesis P_nil : P [].
Hypothesis P_app : forall a b, P a -> P b -> P (a ++ b)%list.

Lemma logs_ret {A} (a : A) : logs P (ret a).
Proof. intros w. exists []. split; [simpl; by rewrite app_nil_r|exact P_nil]. Qed.

Lemma logs_raise {A} (e : exn) : logs P (@raise A e).
Proof. intros w. exists []. split; [simpl; by rewrite app_nil_r|exact P_nil]. Qed.

Lemma logs_lift {A} (r : result A) : logs P (lift r).
Proof. intros w. exists []. split; [simpl; by rewrite app_nil_r|exact P_nil]. Qed.

Lemma logs_get_fs : logs P get_fs.
Proof. intros w. exists []. split; [simpl; by rewrite app_nil_r|exact P_nil]. Qed.

Lemma logs_put_fs fs : logs P (put_fs fs).
Proof. intros w. exists []. split; [simpl; by rewrite app_nil_r|exact P_nil]. Qed.

Lemma logs_emit e : P [e] -> logs P (emit e).
Proof. intros He w. exists [e]. by split. Qed.

Lemma logs_bind {A B} (m : M A) (k : A -> M B) :
  logs P m -> (forall a, logs P (k a)) -> logs P (bind m k).
Proof.
  intros Hm Hk w. destruct (Hm w) as (evs & Ht & Hp). unfold bind.
  destruct (m w) as [[a|e] w1]; simpl in *.
  - destruct (Hk a w1) as (evs' & Ht' & Hp'). exists (evs ++ evs')%list.
    split; [by rewrite Ht', Ht, app_assoc|by apply P_app].
  - by exists evs.
Qed.

Lemma logs_catch {A} (m : M A) (h : exn -> M A) :
  logs P m -> (forall e, logs P (h e)) -> logs P (catch m h).
Proof.
  intros Hm Hh w. destruct (Hm w) as (evs & Ht & Hp). unfold catch.
  destruct (m w) as [[a|e] w1]; simpl in *.
  - by exists evs.
  - destruct (Hh e w1) as (evs' & Ht' & Hp'). exists (evs ++ evs')%list.
    split; [by rewrite Ht', Ht, app_assoc|by apply P_app].
Qed.

Lemma logs_makedirs env p : P [MakeDirs p] -> logs P (makedirs env p).
Proof.
  intros He. unfold makedirs.
  apply logs_bind; [by apply logs_emit|intros _].
  apply logs_bind; [apply logs_get_fs|intros fs].
  destruct (disk_ok env (OpMakedirs p)); [|apply logs_raise].
  destruct (Fs.makedirs fs p); [apply logs_put_fs|apply logs_raise].
Qed.

Lemma logs_write_file env p c : P [WriteFile p] -> logs P (write_file env p c).
Proof.
  intros He. unfold write_file.
  apply logs_bind; [by apply logs_emit|intros _].
  apply logs_bind; [apply logs_get_fs|intros fs].
  destruct (disk_ok env (OpWrite p)); [|apply logs_raise].
  destruct (Fs.write fs p c); [apply logs_put_fs|apply logs_raise].
Qed.

Lemma logs_read_file env p : P [ReadFile p] -> logs P (read_file env p).
Proof.
  intros He. unfold read_file.
  apply logs_bind; [by apply logs_emit|intros _].
  apply logs_bind; [apply logs_get_fs|intros fs].
  destruct (disk_ok env (OpRead p)); [|apply logs_raise].
  destruct (Fs.read fs p); [apply logs_ret|apply logs_raise].
Qed.

End Logs.

Lemma tidy_app a b : tidy a -> tidy b -> tidy (a ++ b)%list.
Proof. induction 1; intros Hb; simpl; [exact Hb|constructor; auto..]. Qed.

Lemma tidy_one e : is_tmp_use e = false -> tidy [e].
Proof. intros He. apply tidy_other; [exact He|constructor]. Qed.

(** The [try]/[finally] around the parser: the parse and the removal of its
    temporary file come as a pair, whatever either of them does. *)
Lemma parse_then_unlink P env tmp data :
  P [PdfLoad tmp; Unlink tmp] ->
  logs P (finally (emit (PdfLoad tmp) ;;; lift (pdf_load env tmp data))
                  (emit (Unlink tmp) ;;; lift (unlink env tmp))).
Proof.
  intros HP w. exists [PdfLoad tmp; Unlink tmp]. split; [|exact HP].
  unfold finally, bind, emit, lift. simpl.
  destruct (pdf_load env tmp data), (unlink env tmp); simpl; by rewrite <- app_assoc.
Qed.

Lemma is_pdf_name f :
  Server.is_pdf f = true ->
  exists name, fo_name f = Some name
               /\ PyStr.endswith (PyStr.lower name) ".pdf" = true.
Proof.
  unfold Server.is_pdf. destruct (fo_name f) as [name|]; [eauto|discriminate].
Qed.

Section HandlerLogs.

Variable P : list event -> Prop.
Hypothesis P_nil : P [].
Hypothesis P_app : forall a b, P a -> P b -> P (a ++ b)%list.
Variables (env : Env) (folder_name user_id : string).
Hypothesis P_list : forall form p, P [StorageList form p].
Hypothesis P_download :
  forall name, PyStr.endswith (PyStr.lower name) ".pdf" = true ->
               P [StorageDownload ((user_id ++ "/" ++ folder_name) ++ "/" ++ name)].
Hypothesis P_tmp : forall data, P [TmpWrite data].
Hypothesis P_parse : forall tmp, P [PdfLoad tmp; Unlink tmp].
Hypothesis P_embed : forall texts, P [EmbedDocuments texts].
Hypothesis P_mkdir : forall p, P [MakeDirs p].
Hypothesis P_write : forall p, P [WriteFile p].

Lemma logs_load_pdfs pdf_files : forall docs,
  Forall (fun f => Server.is_pdf f = true) pdf_files ->
  logs P (Server.load_pdfs env (user_id ++ "/" ++ folder_name) pdf_files docs).
Proof.
  induction pdf_files as [|f rest IH]; intros docs Hall; simpl.
  - by apply logs_ret.
  - inversion Hall as [|? ? Hf Hrest]; subst.
    destruct (Server.is_placeholder (fo_name f)); [by apply IH|].
    destruct (is_pdf_name f Hf) as (name & -> & Hname). cbn [str_opt].
    apply logs_bind; try assumption; [apply logs_emit; auto|intros _].
    apply logs_bind; try assumption; [by apply logs_lift|intros data].
    apply logs_bind; try assumption; [apply logs_emit; auto|intros _].
    apply logs_bind; try assumption; [by apply logs_lift|intros tmp].
    apply logs_bind; try assumption; [apply parse_then_unlink; auto|intros pages].
    by apply IH.
Qed.

Lemma logs_build_index : logs P (Server.build_index env folder_name user_id).
Proof.
  unfold Server.build_index.
  apply logs_bind; try assumption.
  { unfold Server.list_files. apply logs_catch; try assumption.
    - apply logs_bind; try assumption; [apply logs_emit; auto|intros _].
      by apply logs_lift.
    - intros _. apply logs_bind; try assumption; [apply logs_emit; auto|intros _].
      by apply logs_lift. }
  intros files. destruct files as [|f files]; [by apply logs_raise|].
  pose proof (Forall_forall (fun x => Server.is_pdf x = true)
                (List.filter Server.is_pdf (f :: files))) as [_ Hall].
  assert (Hpdf : Forall (fun x => Server.is_pdf x = true)
                   (List.filter Server.is_pdf (f :: files))).
  { apply Hall. intros x Hx. apply list_elem_of_In, filter_In in Hx. tauto. }
  destruct (List.filter Server.is_pdf (f :: files)) as [|pdf pdfs];
    [by apply logs_raise|].
  apply logs_bind; try assumption; [by apply logs_load_pdfs|intros docs].
  destruct docs as [|d docs]; [by apply logs_raise|].
  apply logs_bind; try assumption; [by apply logs_lift|intros chunks].
  apply logs_bind; try assumption; [|intros vs; by apply logs_ret].
  unfold FAISS.from_documents.
  apply logs_bind; try assumption; [apply logs_emit; auto|intros _].
  apply logs_bind; try assumption; [by apply logs_lift|intros vectors].
  destruct vectors; [by apply logs_raise|by apply logs_ret].
Qed.

Lemma logs_index_folder request :
  ir_folder_name request = folder_name ->
  logs P (Server.index_folder env request user_id).
Proof.
  intros Hf. unfold Server.index_folder. rewrite Hf.
  apply logs_catch; try assumption; [|intros e; by apply logs_raise].
  apply logs_bind; try assumption; [apply logs_build_index|intros b].
  apply logs_bind; try assumption; [|intros _; by apply logs_ret].
  unfold Server.store_index, FAISS.save_local.
  apply logs_bind; try assumption; [apply logs_makedirs; auto|intros _].
  apply logs_bind; try assumption; [apply logs_makedirs; auto|intros _].
  apply logs_bind; try assumption; [apply logs_write_file; auto|intros _].
  apply logs_write_file; auto.
Qed.

End HandlerLogs.

(** X1. Whatever the collaborators do, in every run of [index_folder] each
    temporary file given to the PDF parser is removed by the very next call,
    also when the parse or the removal itself fails; no file is removed that
    was not just parsed. *)
Theorem index_folder_removes_its_temporary_files env request user_id w :
  exists evs,
    w_trace (snd (Server.index_folder env request user_id w)) = (w_trace w ++ evs)%list
    /\ tidy evs.
Proof.
  apply (logs_index_folder tidy tidy_nil tidy_app env (ir_folder_name request) user_id);
    try reflexivity; intros; try (by apply tidy_one).
  apply tidy_parse, tidy_nil.
Qed.

(** X2. [index_folder] downloads nothing but PDFs of the folder it was asked
    for: every download it makes, in a run that succeeds or fails, is of a
    path [user_id/folder_name/name] whose [name] ends in [.pdf] in some
    letter case. *)
Theorem index_folder_downloads_only_pdfs env request user_id w :
  exists evs,
    w_trace (snd (Server.index_folder env request user_id w)) = (w_trace w ++ evs)%list
    /\ Forall (pdf_download (user_id ++ "/" ++ ir_folder_name request)) evs.
Proof.
  apply (logs_index_folder
           (Forall (pdf_download (user_id ++ "/" ++ ir_folder_name request)))
           (List.Forall_nil _) (fun a b Ha Hb => proj2 (Forall_app _ a b) (conj Ha Hb))
           env (ir_folder_name request) user_id);
    try reflexivity; intros; repeat constructor.
  simpl. eauto.
Qed.

(** * More of [server.py]: what a build reports *)

Lemma log_inj evs evs' w : log evs w = log evs' w -> evs = evs'.
Proof. unfold log. intros [= H]. by apply app_inv_head in H. Qed.

Lemma lift_run {A} (r : result A) w : lift r w = (r, w).
Proof. reflexivity. Qed.

Lemma list_files_run env p w :
  Server.list_files env p w
  = match storage_list env ByKeyword p with
    | Ok files => (Ok files, log [StorageList ByKeyword p] w)
    | Raise _ => (storage_list env ByPosition p,
                  log [StorageList ByKeyword p; StorageList ByPosition p] w)
    end.
Proof.
  unfold Server.list_files, catch, bind, emit, lift, log. simpl.
  destruct (storage_list env ByKeyword p); simpl; [reflexivity|].
  by rewrite <- app_assoc.
Qed.

Lemma is_pdf_not_placeholder f :
  Server.is_pdf f = true -> Server.is_placeholder (fo_name f) = false.
Proof.
  intros (name & Hn & He)%is_pdf_name. rewrite Hn. simpl.
  destruct (String.eqb_spec name ".placeholder") as [->|_]; [|reflexivity].
  vm_compute in He. discriminate.
Qed.

Lemma parse_block_run env tmp data :
  exists r, forall w,
    finally (emit (PdfLoad tmp) ;;; lift (pdf_load env tmp data))
            (emit (Unlink tmp) ;;; lift (unlink env tmp)) w
    = (r, log [PdfLoad tmp; Unlink tmp] w).
Proof.
  unfold finally, bind, emit, lift, log. simpl.
  destruct (pdf_load env tmp data) as [pages|e], (unlink env tmp) as [u|e'];
    eexists; intros w; simpl; rewrite <- app_assoc; reflexivity.
Qed.

(** A parse loop that comes through has downloaded every PDF it was given,
    once, in order. *)
Lemma load_pdfs_ok env fp pdf_files : forall docs w docs' w',
  Forall (fun f => Server.is_pdf f = true) pdf_files ->
  Server.load_pdfs env fp pdf_files docs w = (Ok docs', w') ->
  exists evs,
    w' = log evs w
    /\ List.filter is_download evs
       = map (fun f => StorageDownload (fp ++ "/" ++ str_opt (fo_name f))) pdf_files.
Proof.
  induction pdf_files as [|f rest IH]; intros docs w docs' w' Hall H.
  - simpl in H. unfold ret in H. injection H as _ <-. exists [].
    by rewrite log_nil.
  - inversion Hall as [|? ? Hf Hrest]; subst. simpl in H.
    rewrite (is_pdf_not_placeholder f Hf) in H.
    apply bind_ok in H as (u1 & w1 & He & H). rewrite emit_run in He.
    injection He as _ <-.
    apply bind_ok in H as (data & w2 & Hd & H). rewrite lift_run in Hd.
    injection Hd as _ <-.
    apply bind_ok in H as (u2 & w3 & He & H). rewrite emit_run in He.
    injection He as _ <-.
    apply bind_ok in H as (tmp & w4 & Ht & H). rewrite lift_run in Ht.
    injection Ht as _ <-.
    apply bind_ok in H as (pages & w5 & Hp & H).
    destruct (parse_block_run env tmp data) as (rp & Hrun). rewrite Hrun in Hp.
    injection Hp as _ <-.
    apply (IH _ _ _ _ Hrest) in H as (evs & -> & Hdl).
    eexists. split; [by rewrite !log_log|].
    simpl. by rewrite Hdl.
Qed.

(** What a build phase that comes through has done and holds. *)
Lemma build_index_ok env folder_name user_id w b w' :
  Server.build_index env folder_name user_id w = (Ok b, w') ->
  exists files docs evs,
    (storage_list env ByKeyword (user_id ++ "/" ++ folder_name) = Ok files
     \/ exists e, storage_list env ByKeyword (user_id ++ "/" ++ folder_name) = Raise e
                  /\ storage_list env ByPosition (user_id ++ "/" ++ folder_name)
                     = Ok files)
    /\ w' = log evs w
    /\ List.filter is_download evs
       = map (fun f => StorageDownload ((user_id ++ "/" ++ folder_name) ++ "/"
                                        ++ str_opt (fo_name f)))
             (Server.b_pdf_files b)
    /\ Server.b_pdf_files b = List.filter Server.is_pdf files
    /\ Server.b_pdf_files b <> []
    /\ docs <> []
    /\ Server.b_chunks b = flat_map (Splitter.chunks_of Server.splitter) docs
    /\ FAISS.vs_docstore (Server.b_vectorstore b) = Server.b_chunks b
    /\ embed_documents env Server.embedding_model (map page_content (Server.b_chunks b))
       = Ok (FAISS.vs_index (Server.b_vectorstore b))
    /\ FAISS.vs_index (Server.b_vectorstore b) <> [].
Proof.
  unfold Server.build_index. intros H.
  apply bind_ok in H as (files & w1 & Hl & H). rewrite list_files_run in Hl.
  assert (Hlist : exists evl,
             w1 = log evl w /\ List.filter is_download evl = []
             /\ (storage_list env ByKeyword (user_id ++ "/" ++ folder_name) = Ok files
                 \/ exists e,
                      storage_list env ByKeyword (user_id ++ "/" ++ folder_name) = Raise e
                      /\ storage_list env ByPosition (user_id ++ "/" ++ folder_name)
                         = Ok files)).
  { destruct (storage_list env ByKeyword (user_id ++ "/" ++ folder_name)) as [l|e].
    - injection Hl as -> <-. eexists. split; [reflexivity|]. split; [reflexivity|].
      by left.
    - injection Hl as Hl <-. eexists. split; [reflexivity|]. split; [reflexivity|].
      right. by exists e. }
  destruct Hlist as (evl & -> & Hevl & Hfrom). clear Hl.
  destruct files as [|f files]; [discriminate|].
  assert (Hpdf : Forall (fun x => Server.is_pdf x = true)
                   (List.filter Server.is_pdf (f :: files))).
  { apply Forall_forall. intros x Hx. apply list_elem_of_In, filter_In in Hx. tauto. }
  destruct (List.filter Server.is_pdf (f :: files)) as [|pdf pdfs] eqn:Efilter;
    [discriminate|].
  apply bind_ok in H as (docs & w2 & Hd & H).
  apply (load_pdfs_ok _ _ _ _ _ _ _ Hpdf) in Hd as (evd & -> & Hevd).
  destruct docs as [|d docs]; [discriminate|].
  apply bind_ok in H as (chunks & w3 & Hc & H). rewrite lift_run in Hc.
  injection Hc as Hc <-.
  apply bind_ok in H as (vs & w4 & Hv & H).
  unfold FAISS.from_documents in Hv.
  apply bind_ok in Hv as (u & w5 & He & Hv). rewrite emit_run in He.
  injection He as _ <-.
  apply bind_ok in Hv as (vectors & w6 & Hvec & Hv). rewrite lift_run in Hvec.
  injection Hvec as Hvec <-.
  destruct vectors as [|v vectors]; [discriminate|].
  unfold ret in Hv, H. injection Hv as <- <-. injection H as <- <-.
  exists (f :: files), (d :: docs). eexists.
  cbn [Server.b_pdf_files Server.b_chunks Server.b_vectorstore
       FAISS.vs_index FAISS.vs_docstore].
  split; [exact Hfrom|].
  split; [by rewrite !log_log|].
  split.
  { rewrite !List.filter_app, Hevl, Hevd. cbn [List.filter is_download].
    by rewrite app_nil_l, app_nil_r. }
  split; [by rewrite Efilter|]. split; [discriminate|]. split; [discriminate|].
  split; [symmetry; exact Hc|]. split; [reflexivity|].
  split; [exact Hvec|discriminate].
Qed.

(** Resolving [dir/name] goes through the place [dir] resolves to. *)
Lemma walk_parent ns name : forall comps cur p,
  Fs.is_dot name = false -> String.eqb name ".." = false ->
  Fs.walk ns cur (comps ++ [name])%list = Some p ->
  Fs.walk ns cur comps = Some (Fs.parent p).
Proof.
  induction comps as [|c rest IH]; intros cur p Hdot Hup; simpl.
  - rewrite Hdot, Hup. intros [= <-]. unfold Fs.parent. by rewrite removelast_last.
  - destruct (Fs.is_dot c); [by apply IH|].
    destruct (String.eqb c ".."); [by apply IH|].
    pose proof (IH (cur ++ [c])%list p Hdot Hup) as IH'. clear IH.
    destruct (rest ++ [name])%list eqn:E; [by destruct rest|].
    destruct rest as [|r rs].
    + destruct (Fs.is_dir ns (cur ++ [c])%list); [|discriminate].
      intros H. apply IH' in H. exact H.
    + destruct (Fs.is_dir ns (cur ++ [c])%list); [exact IH'|discriminate].
Qed.

Lemma startswith_app (s t : string) :
  s <> "" -> PyStr.startswith (s ++ t) "/" = PyStr.startswith s "/".
Proof.
  destruct s as [|a s]; [done|]. intros _.
  change (String a s ++ t) with (String a (s ++ t)).
  unfold PyStr.startswith. cbn [String.prefix].
  destruct (ascii_dec "/" a); [|reflexivity]. by destruct (s ++ t), s.
Qed.

Lemma nonempty_length (s : string) : s <> "" <-> (0 < String.length s)%nat.
Proof. destruct s; simpl; split; (done || lia). Qed.

Lemma save_path_nonempty folder_name user_id : Server.save_path folder_name user_id <> "".
Proof.
  unfold Server.save_path, OsPath.join. cbn [fold_left]. unfold OsPath.join_step.
  assert (Hb : (0 < String.length (folder_name ++ "_faiss"))%nat).
  { rewrite length_append. simpl. lia. }
  generalize dependent (folder_name ++ "_faiss"). intros b Hb.
  repeat match goal with |- context [if ?c then _ else _] => destruct c end;
    apply nonempty_length; rewrite ?length_append; lia.
Qed.

(** Once a file was written into [dir], [dir] exists. *)
Lemma exists_after_write fs dir name c fs' :
  dir <> "" ->
  Fs.components name = [name] ->
  Fs.is_dot name = false -> String.eqb name ".." = false ->
  Fs.write fs (Fs.child dir name) c = Some fs' ->
  Fs.exists_ fs' dir = true.
Proof.
  intros Hdir Hc Hdot Hup Hw.
  pose proof (write_cwd _ _ _ _ Hw) as Hcwd.
  pose proof (write_mono _ _ _ _ Hw) as Hle.
  apply write_inv in Hw as (p & Hr & _ & Hd & _ & _).
  assert (Hrd : Fs.resolve fs dir = Some (Fs.parent p)).
  { unfold Fs.resolve in Hr |- *. rewrite components_child, Hc in Hr.
    assert (Hs : Fs.start fs (Fs.child dir name) = Fs.start fs dir).
    { unfold Fs.start, Fs.child.
      destruct (String.eqb_spec dir "") as [->|_]; [done|].
      by rewrite startswith_app. }
    rewrite Hs in Hr.
    destruct (String.eqb_spec dir "") as [->|_]; [done|].
    by apply (walk_parent _ name). }
  unfold Fs.exists_. rewrite (resolve_stable _ _ _ _ Hcwd Hle Hrd).
  apply (is_dir_mono _ _ _ Hle) in Hd. unfold Fs.is_dir in Hd.
  destruct (Fs.parent p); [reflexivity|].
  destruct (Fs.nodes fs' !! _) as [[|]|]; done.
Qed.

(** A successful [index_folder], end to end: the build it ran, the summary
    it returns, the index it leaves, and the calls it made. *)
Lemma index_folder_done env request user_id w r w' :
  Server.index_folder env request user_id w = (Ok r, w') ->
  let folder_name := ir_folder_name request in
  let sp := Server.save_path folder_name user_id in
  exists b evs,
    Server.build_index env folder_name user_id w = (Ok b, log evs w)
    /\ r = Server.response folder_name b
    /\ committed (w_fs w') (Server.index_path_of user_id folder_name)
       = (Some (Fs.FaissIndex (FAISS.vs_index (Server.b_vectorstore b))),
          Some (Fs.DocStore (FAISS.vs_docstore (Server.b_vectorstore b))))
    /\ w_trace w'
       = (w_trace w ++ evs ++ [MakeDirs (Server.user_dir user_id); MakeDirs sp;
                               WriteFile (Fs.child sp "index.faiss");
                               WriteFile (Fs.child sp "index.pkl")])%list
    /\ Fs.exists_ (w_fs w') (Server.index_path_of user_id folder_name) = true.
Proof.
  intros H. cbv zeta. apply index_folder_ok in H
    as (b & evs & fs1 & fs2 & fs3 & fs4 & Hb & -> & _ & _ & _ & _ & _ & H3 & _ & H4 & ->).
  exists b, evs. split; [apply Hb|]. split; [reflexivity|].
  split; [|split; [reflexivity|]].
  2:{ apply (exists_after_write _ _ "index.pkl" _ _ (save_path_nonempty _ _)) in H4;
        [exact H4|reflexivity..]. }
  unfold committed, commit. cbn [w_fs].
  change (Server.index_path_of user_id (ir_folder_name request))
    with (Server.save_path (ir_folder_name request) user_id).
  rewrite (read_after_write _ _ _ _ H4).
  erewrite read_write_other; [reflexivity|exact H4|eapply read_after_write, H3|].
  intros p p' Hp Hp' ->. eapply index_files_apart; eauto.
Qed.

(** X3. The summary a successful [index_folder] returns agrees with what it
    has left on disk: the folder of the key holds a docstore of exactly
    [chunks_created] documents beside an index of the vectors the provider
    returned for their texts (at least one), the status is "indexed", the
    folder is the one asked for, and at least one file was processed. *)
Theorem index_folder_summary_matches_index env request user_id w r w' :
  Server.index_folder env request user_id w = (Ok r, w') ->
  exists vectors docs,
    committed (w_fs w') (Server.index_path_of user_id (ir_folder_name request))
    = (Some (Fs.FaissIndex vectors), Some (Fs.DocStore docs))
    /\ chunks_created r = length docs
    /\ embed_documents env Server.embedding_model (map page_content docs) = Ok vectors
    /\ vectors <> []
    /\ status r = "indexed"
    /\ folder r = ir_folder_name request
    /\ (1 <= files_processed r)%nat.
Proof.
  intros H. apply index_folder_done in H as (b & evs & Hb & -> & Hc & _ & _).
  apply build_index_ok in Hb
    as (files & pages & evs' & _ & _ & _ & _ & Hne & _ & _ & Hds & Hemb & Hv).
  exists (FAISS.vs_index (Server.b_vectorstore b)),
         (FAISS.vs_docstore (Server.b_vectorstore b)).
  split; [exact Hc|]. rewrite Hds. cbn [Server.response chunks_created status folder
                                         files_processed].
  repeat split; try assumption.
  destruct (Server.b_pdf_files b); [congruence|simpl; lia].
Qed.

Lemma index_folder_summary_matches_index_witness :
  exists vectors docs,
    committed (w_fs Scenario.after_u2) "./data/indexes/u2/notes_faiss"
    = (Some (Fs.FaissIndex vectors), Some (Fs.DocStore docs))
    /\ 1 = length docs
    /\ vectors <> [].
Proof.
  destruct (index_folder_summary_matches_index Scenario.env0
              {| ir_folder_name := "notes" |} "u2" Scenario.boot
              {| status := "indexed"; folder := "notes";
                 files_processed := 1; chunks_created := 1 |}
              (snd (Server.index_folder Scenario.env0
                      {| ir_folder_name := "notes" |} "u2" Scenario.boot)))
    as (vectors & docs & Hc & Hl & _ & Hv & _).
  - vm_compute. reflexivity.
  - exists vectors, docs. split; [exact Hc|]. split; [exact Hl|exact Hv].
Defined.

(** X4. A successful [index_folder] has downloaded each PDF it counts in
    [files_processed] exactly once, in listing order, from under
    [user_id/folder_name], and nothing else: its downloads are the paths of
    those entries of the storage listing (the listing by keyword, or the
    positional one when the first failed) whose lower-cased name ends in
    ".pdf". *)
Theorem index_folder_counts_its_downloads env request user_id w r w' :
  Server.index_folder env request user_id w = (Ok r, w') ->
  let folder_path := user_id ++ "/" ++ ir_folder_name request in
  exists evs files,
    (storage_list env ByKeyword folder_path = Ok files
     \/ exists e, storage_list env ByKeyword folder_path = Raise e
                  /\ storage_list env ByPosition folder_path = Ok files)
    /\ w_trace w' = (w_trace w ++ evs)%list
    /\ List.filter is_download evs
       = map (fun f => StorageDownload (folder_path ++ "/" ++ str_opt (fo_name f)))
             (List.filter Server.is_pdf files)
    /\ files_processed r = length (List.filter is_download evs).
Proof.
  intros H. cbv zeta. apply index_folder_done in H as (b & evs & Hb & -> & _ & Ht & _).
  apply build_index_ok in Hb
    as (files & pages & evs' & Hfrom & Hlog & Hdl & Hpdf & _).
  apply log_inj in Hlog as ->.
  eexists. exists files. split; [exact Hfrom|]. split; [exact Ht|].
  rewrite List.filter_app, Hdl. cbn [List.filter is_download]. rewrite app_nil_r.
  split; [by rewrite Hpdf|]. by rewrite length_map.
Qed.

Lemma index_folder_counts_its_downloads_witness :
  exists evs,
    w_trace (snd (Server.index_folder Scenario.env0
                    {| ir_folder_name := "notes" |} "u2" Scenario.boot))
    = (w_trace Scenario.boot ++ evs)%list
    /\ List.filter is_download evs
       = map (fun f => StorageDownload (("u2" ++ "/" ++ "notes") ++ "/"
                                        ++ str_opt (fo_name f)))
             (List.filter Server.is_pdf (Scenario.listing "u2/notes"))
    /\ 1 = length (List.filter is_download evs).
Proof.
  destruct (index_folder_counts_its_downloads Scenario.env0
              {| ir_folder_name := "notes" |} "u2" Scenario.boot
              {| status := "indexed"; folder := "notes";
                 files_processed := 1; chunks_created := 1 |}
              (snd (Server.index_folder Scenario.env0
                      {| ir_folder_name := "notes" |} "u2" Scenario.boot)))
    as (evs & files & Hfrom & Ht & Hdl & Hn).
  - vm_compute. reflexivity.
  - exists evs. split; [exact Ht|]. split; [|exact Hn].
    destruct Hfrom as [Hkw|(e & Hkw & _)]; [|discriminate Hkw].
    injection Hkw as <-. exact Hdl.
Defined.

(** * More of [server.py]: what the handlers leave on disk *)

Section Keeps.

Variable I : Fs.filesys -> Prop.

Lemma keeps_ret {A} (a : A) : keeps I (ret a).
Proof. intros w H. exact H. Qed.

Lemma keeps_raise {A} (e : exn) : keeps I (@raise A e).
Proof. intros w H. exact H. Qed.

Lemma keeps_lift {A} (r : result A) : keeps I (lift r).
Proof. intros w H. exact H. Qed.

Lemma keeps_emit (e : event) : keeps I (emit e).
Proof. intros w H. exact H. Qed.

Lemma keeps_get_fs : keeps I get_fs.
Proof. intros w H. exact H. Qed.

Lemma keeps_bind {A B} (m : M A) (k : A -> M B) :
  keeps I m -> (forall a, keeps I (k a)) -> keeps I (bind m k).
Proof.
  intros Hm Hk w H. specialize (Hm w H). unfold bind.
  destruct (m w) as [[a|e] w1]; [apply Hk|]; exact Hm.
Qed.

Lemma keeps_catch {A} (m : M A) (h : exn -> M A) :
  keeps I m -> (forall e, keeps I (h e)) -> keeps I (catch m h).
Proof.
  intros Hm Hh w H. specialize (Hm w H). unfold catch.
  destruct (m w) as [[a|e] w1]; [|apply Hh]; exact Hm.
Qed.

Lemma keeps_oblivious {A} (m : M A) : oblivious m -> keeps I m.
Proof. intros (r & evs & Hm) w H. by rewrite Hm. Qed.

Lemma keeps_path_exists p : keeps I (path_exists p).
Proof. intros w H. exact H. Qed.

Lemma keeps_read_file env p : keeps I (read_file env p).
Proof.
  unfold read_file. apply keeps_bind; [apply keeps_emit|]. intros _.
  apply keeps_bind; [apply keeps_get_fs|]. intros fs.
  destruct (disk_ok env (OpRead p)); [|apply keeps_raise].
  destruct (Fs.read fs p); [apply keeps_ret|apply keeps_raise].
Qed.

Lemma keeps_makedirs env p :
  (forall fs fs', I fs -> Fs.makedirs fs p = Some fs' -> I fs') ->
  keeps I (makedirs env p).
Proof.
  intros Hp w H. rewrite makedirs_run.
  destruct (disk_ok env (OpMakedirs p)); [|exact H].
  destruct (Fs.makedirs (w_fs w) p) as [fs'|] eqn:E; [|exact H].
  exact (Hp _ _ H E).
Qed.

Lemma keeps_write_file env p c :
  (forall fs fs', I fs -> Fs.write fs p c = Some fs' -> I fs') ->
  keeps I (write_file env p c).
Proof.
  intros Hp w H. rewrite write_file_run.
  destruct (disk_ok env (OpWrite p)); [|exact H].
  destruct (Fs.write (w_fs w) p c) as [fs'|] eqn:E; [|exact H].
  exact (Hp _ _ H E).
Qed.

Lemma keeps_load_local env folder : keeps I (FAISS.load_local env folder).
Proof.
  unfold FAISS.load_local. apply keeps_bind; [apply keeps_read_file|].
  intros [vectors| |]; try apply keeps_raise.
  apply keeps_bind; [apply keeps_read_file|].
  intros [|docs|]; try apply keeps_raise. apply keeps_ret.
Qed.

Lemma keeps_qa_run env vs q : keeps I (Server.qa_run env vs q).
Proof.
  unfold Server.qa_run, Server.retrieve_context, FAISS.similarity_search.
  apply keeps_bind.
  - apply keeps_bind; [apply keeps_emit|]. intros _.
    apply keeps_bind; [apply keeps_lift|]. intros qv. apply keeps_lift.
  - intros docs. apply keeps_bind; [apply keeps_lift|]. intros prompt.
    apply keeps_bind; [apply keeps_emit|]. intros _. apply keeps_lift.
Qed.

Lemma keeps_chat env request user_id : keeps I (Server.chat env request user_id).
Proof.
  unfold Server.chat. destruct (String.eqb (cr_query request) ""); [apply keeps_raise|].
  apply keeps_bind; [apply keeps_path_exists|]. intros indexed.
  destruct (negb indexed); [apply keeps_raise|].
  apply keeps_catch; [|intros e; apply keeps_raise].
  unfold Server.chat_body. apply keeps_bind; [apply keeps_load_local|]. intros vs.
  apply keeps_bind; [apply keeps_qa_run|]. intros ans. apply keeps_ret.
Qed.

End Keeps.

Lemma read_file_run env p w :
  read_file env p w
  = (match (if disk_ok env (OpRead p) then Fs.read (w_fs w) p else None) with
     | Some c => Ok c
     | None => Raise (os_error p)
     end, log [ReadFile p] w).
Proof.
  unfold read_file, bind, emit, get_fs, ret, raise. simpl.
  destruct (disk_ok env (OpRead p)); [|reflexivity].
  destruct (Fs.read (w_fs w) p); reflexivity.
Qed.

(** [FAISS.load_local] either reads both files and hands back what they
    hold, or fails on the first file it cannot use. *)
Lemma load_local_run env folder w :
  let faiss := Fs.child folder "index.faiss" in
  let pkl := Fs.child folder "index.pkl" in
  (exists vs,
     FAISS.load_local env folder w = (Ok vs, log [ReadFile faiss; ReadFile pkl] w)
     /\ Fs.read (w_fs w) faiss = Some (Fs.FaissIndex (FAISS.vs_index vs))
     /\ Fs.read (w_fs w) pkl = Some (Fs.DocStore (FAISS.vs_docstore vs)))
  \/ (exists e evs,
        FAISS.load_local env folder w = (Raise e, log evs w)
        /\ (evs = [ReadFile faiss] \/ evs = [ReadFile faiss; ReadFile pkl])).
Proof.
  cbv zeta. unfold FAISS.load_local, bind. rewrite !read_file_run.
  destruct (if disk_ok env (OpRead (Fs.child folder "index.faiss")) then _ else None)
    as [c1|] eqn:E1.
  2:{ right. do 2 eexists. split; [reflexivity|left; reflexivity]. }
  assert (R1 : Fs.read (w_fs w) (Fs.child folder "index.faiss") = Some c1).
  { destruct (disk_ok env _); [exact E1|discriminate]. }
  destruct c1 as [vectors| |];
    try (right; unfold raise; do 2 eexists; split; [reflexivity|left; reflexivity]).
  rewrite !read_file_run, !log_log. cbn [w_fs log].
  destruct (if disk_ok env (OpRead (Fs.child folder "index.pkl")) then _ else None)
    as [c2|] eqn:E2.
  2:{ right. do 2 eexists. split; [reflexivity|right; reflexivity]. }
  assert (R2 : Fs.read (w_fs w) (Fs.child folder "index.pkl") = Some c2).
  { destruct (disk_ok env (OpRead (Fs.child folder "index.pkl")));
      [exact E2|discriminate]. }
  destruct c2 as [|docs|];
    try (right; unfold raise; do 2 eexists; split; [reflexivity|right; reflexivity]).
  left. eexists. unfold ret. cbn [FAISS.vs_index FAISS.vs_docstore].
  split; [reflexivity|]. split; assumption.
Qed.

(** The chain of [chat] asks for the query's embedding first, and calls the
    model only when retrieval came through. *)
Lemma qa_run_run env vs q w :
  exists r evs,
    Server.qa_run env vs q w = (r, log evs w)
    /\ ((evs = [EmbedQuery q] /\ exists e, r = Raise e)
        \/ exists prompt, evs = [EmbedQuery q; Generate Server.llm prompt]).
Proof.
  unfold Server.qa_run, Server.retrieve_context, FAISS.similarity_search.
  unfold bind, emit, lift. cbn [fst snd].
  destruct (embed_query env Server.embedding_model q) as [qv|e].
  2:{ do 2 eexists. split; [reflexivity|]. left. eauto. }
  destruct (FAISS.fetch _ _) as [docs|e].
  2:{ do 2 eexists. split; [reflexivity|]. left. eauto. }
  rewrite format_prompt. do 2 eexists. split; [|right; eexists; reflexivity].
  unfold log. cbn [w_fs w_trace]. by rewrite <- app_assoc.
Qed.

(** X5. [chat] never changes the index directory, whatever it returns. The
    calls it makes are an initial stretch of: the existence check of the
    index folder, the read of [index.faiss], the read of [index.pkl], the
    embedding of the query, one generation call. A provider is called only
    after both index files were read from that folder. *)
Theorem chat_reads_the_index_and_never_writes env request user_id w :
  let index_path := Server.index_path_of user_id (cr_folder_name request) in
  let w' := snd (Server.chat env request user_id w) in
  w_fs w' = w_fs w
  /\ exists evs prompt,
       w_trace w' = (w_trace w ++ evs)%list
       /\ evs `prefix_of` [PathExists index_path;
                           ReadFile (Fs.child index_path "index.faiss");
                           ReadFile (Fs.child index_path "index.pkl");
                           EmbedQuery (cr_query request);
                           Generate Server.llm prompt]
       /\ (existsb is_provider_call evs = true ->
           exists vectors docs,
             committed (w_fs w) index_path
             = (Some (Fs.FaissIndex vectors), Some (Fs.DocStore docs))).
Proof.
  cbv zeta. split.
  { by apply (keeps_chat (fun fs => fs = w_fs w)). }
  unfold Server.chat. destruct (String.eqb (cr_query request) "").
  { exists [], "". unfold raise. cbn [snd]. rewrite app_nil_r.
    split; [reflexivity|]. split; [by eexists|]. discriminate. }
  unfold bind at 1. rewrite path_exists_run.
  destruct (negb (Fs.exists_ (w_fs w) _)).
  { eexists [_], "". unfold raise. cbn [snd log w_trace].
    split; [reflexivity|]. split; [by eexists|]. discriminate. }
  set (ip := Server.index_path_of user_id (cr_folder_name request)).
  unfold catch, Server.chat_body. unfold bind at 1.
  destruct (load_local_run env ip (log [PathExists ip] w))
    as [(vs & -> & R1 & R2)|(e & evs & -> & Hevs)].
  2:{ unfold raise. cbn [snd]. rewrite log_log. exists ([PathExists ip] ++ evs)%list, "".
      split; [reflexivity|].
      destruct Hevs as [-> | ->]; (split; [by eexists|discriminate]). }
  rewrite log_log. unfold bind.
  destruct (qa_run_run env vs (cr_query request)
              (log ([PathExists ip] ++ [ReadFile (Fs.child ip "index.faiss");
                                        ReadFile (Fs.child ip "index.pkl")]) w))
    as (r & evs & -> & Hevs).
  assert (Hc : exists vectors docs,
             committed (w_fs w) ip
             = (Some (Fs.FaissIndex vectors), Some (Fs.DocStore docs))).
  { unfold committed. cbn [log w_fs] in R1, R2. rewrite R1, R2. eauto. }
  rewrite log_log.
  destruct Hevs as [[-> (e & ->)]|(prompt & ->)].
  - unfold raise. cbn [snd log w_trace]. eexists _, "".
    split; [reflexivity|]. split; [by eexists|]. intros _. exact Hc.
  - exists ([PathExists ip; ReadFile (Fs.child ip "index.faiss");
             ReadFile (Fs.child ip "index.pkl"); EmbedQuery (cr_query request);
             Generate Server.llm prompt]), prompt.
    split; [destruct r; reflexivity|]. split; [by exists []|]. intros _. exact Hc.
Qed.

(** X6. What [chat] answers, by cause. Status 400 means the query was
    empty; 404 means the query was not empty and nothing exists at the
    index path; 500 means the query was not empty, the path exists, and
    loading, retrieval or generation failed (the detail is that failure's
    text after "Error processing chat: "). An answer means the query was
    not empty and the path exists, and it echoes the folder name and the
    user. No other status and no bare exception leaves the handler. *)
Theorem chat_status_by_cause env request user_id w :
  let q := cr_query request in
  let found :=
    Fs.exists_ (w_fs w) (Server.index_path_of user_id (cr_folder_name request)) in
  match fst (Server.chat env request user_id w) with
  | Ok resp =>
      q <> "" /\ found = true
      /\ chat_folder resp = cr_folder_name request /\ chat_user_id resp = user_id
  | Raise (HTTPException code detail) =>
      (code = 400%Z /\ q = "")
      \/ (code = 404%Z /\ q <> "" /\ found = false)
      \/ (code = 500%Z /\ q <> "" /\ found = true
          /\ exists e, detail = "Error processing chat: " ++ str e)
  | Raise (Error _) => False
  end.
Proof.
  cbv zeta. unfold Server.chat.
  destruct (String.eqb_spec (cr_query request) "") as [Hq|Hq].
  { left. split; [reflexivity|exact Hq]. }
  unfold bind at 1. rewrite path_exists_run.
  destruct (Fs.exists_ (w_fs w) _) eqn:Hx; cbn [negb].
  2:{ right. left. auto. }
  unfold catch.
  destruct (Server.chat_body env _ _ _ _ _) as [[resp|e] w1] eqn:Hb.
  - cbn [fst]. unfold Server.chat_body in Hb.
    apply bind_ok in Hb as (vs & w2 & _ & Hb).
    apply bind_ok in Hb as (ans & w3 & _ & Hb).
    unfold ret in Hb. injection Hb as <- _. auto.
  - unfold raise. cbn [fst]. right. right. eauto 6.
Qed.

(** * More of [server.py]: from [index_folder] to [chat] *)

(** X7. What [index_folder] stores is what [chat] loads. After a successful
    [index_folder], a [chat] request of the same user for the same folder
    with a non-empty query is never answered 400 or 404, whatever the
    services do by then; and if it is answered, the answer is the model's
    reply to the prompt built from the documents retrieved, by the vectors
    that [index_folder] got for them, out of the [chunks_created] chunks
    that [index_folder] stored. *)
Theorem chat_loads_what_index_folder_stored env request user_id w r w' env' q :
  Server.index_folder env request user_id w = (Ok r, w') ->
  q <> "" ->
  let ask := {| cr_folder_name := ir_folder_name request; cr_query := q |} in
  exists vectors docs,
    chunks_created r = length docs
    /\ embed_documents env Server.embedding_model (map page_content docs) = Ok vectors
    /\ status_of (fst (Server.chat env' ask user_id w')) <> Some 400%Z
    /\ status_of (fst (Server.chat env' ask user_id w')) <> Some 404%Z
    /\ forall resp w'',
         Server.chat env' ask user_id w' = (Ok resp, w'') ->
         exists qv context,
           embed_query env' Server.embedding_model q = Ok qv
           /\ FAISS.fetch docs
                (Retriever.retrieve (similarity env')
                   (FAISS.entries {| FAISS.vs_index := vectors;
                                     FAISS.vs_docstore := docs |})
                   qv Server.search_k Server.search_fetch_k) = Ok context
           /\ generate env' Server.llm
                (prompt_head
                 ++ PyStr.join (PyStr.nl ++ PyStr.nl) (map page_content context)
                 ++ prompt_mid ++ q ++ prompt_tail) = Ok (answer resp).
Proof.
  intros H Hq. cbv zeta.
  apply index_folder_done in H as (b & evs & Hb & -> & Hc & _ & Hx).
  apply build_index_ok in Hb
    as (files & pages & evs' & _ & _ & _ & _ & _ & _ & _ & Hds & Hemb & _).
  exists (FAISS.vs_index (Server.b_vectorstore b)),
         (FAISS.vs_docstore (Server.b_vectorstore b)).
  rewrite Hds at 1 2. split; [reflexivity|]. split; [exact Hemb|].
  set (ip := Server.index_path_of user_id (ir_folder_name request)) in *.
  assert (Hchat : Server.chat env' {| cr_folder_name := ir_folder_name request;
                                      cr_query := q |} user_id w'
                  = catch (Server.chat_body env' (ir_folder_name request) q user_id ip)
                      (fun e => raise (HTTPException 500
                                         ("Error processing chat: " ++ str e)))
                      (log [PathExists ip] w')).
  { unfold Server.chat. cbn [cr_query cr_folder_name].
    destruct (String.eqb_spec q "") as [->|_]; [done|].
    unfold bind at 1. rewrite path_exists_run. fold ip. by rewrite Hx. }
  rewrite Hchat. unfold catch.
  destruct (Server.chat_body env' _ _ _ _ _) as [[resp|e] w1] eqn:Hbody.
  2:{ unfold raise. cbn [fst status_of]. repeat split; try discriminate. }
  cbn [fst status_of]. repeat split; try discriminate.
  intros resp' w'' [= <- <-]. unfold Server.chat_body in Hbody.
  apply bind_ok in Hbody as (vs & w2 & Hl & Hbody).
  apply load_local_ok in Hl as (R1 & R2 & ->).
  unfold committed in Hc. cbn [log w_fs] in R1, R2. fold ip in Hc.
  rewrite R1, R2 in Hc. injection Hc as Hi Hd.
  apply bind_ok in Hbody as (ans & w3 & Hqa & Hbody).
  unfold ret in Hbody. injection Hbody as <- _. cbn [answer].
  apply qa_run_ok in Hqa as (qv & context & Hqv & Hf & Hg & _).
  exists qv, context. rewrite <- Hi, <- Hd.
  split; [exact Hqv|]. split; [by destruct vs|exact Hg].
Qed.

Lemma chat_loads_what_index_folder_stored_witness :
  exists vectors docs,
    1 = length docs
    /\ embed_documents Scenario.env0 Server.embedding_model (map page_content docs)
       = Ok vectors
    /\ status_of (fst (Server.chat Scenario.env0
                         {| cr_folder_name := "notes"; cr_query := "what?" |} "u2"
                         (snd (Server.index_folder Scenario.env0
                                 {| ir_folder_name := "notes" |} "u2" Scenario.boot))))
       <> Some 404%Z.
Proof.
  destruct (chat_loads_what_index_folder_stored Scenario.env0
              {| ir_folder_name := "notes" |} "u2" Scenario.boot
              {| status := "indexed"; folder := "notes";
                 files_processed := 1; chunks_created := 1 |}
              (snd (Server.index_folder Scenario.env0
                      {| ir_folder_name := "notes" |} "u2" Scenario.boot))
              Scenario.env0 "what?")
    as (vectors & docs & Hl & He & _ & H404 & _).
  - vm_compute. reflexivity.
  - discriminate.
  - exists vectors, docs. split; [exact Hl|]. split; [exact He|exact H404].
Defined.

(** * More of [server.py]: one key's build and another key's index *)

Lemma walk_create_keeps comps : forall ns cur ns' p q x,
  Fs.walk_create ns cur comps = Some (ns', p) ->
  ns !! q = Some x -> ns' !! q = Some x.
Proof.
  induction comps as [|c rest IH]; intros ns cur ns' p q x; simpl.
  - by intros [= <- _].
  - destruct (Fs.is_dot c); [by apply IH|].
    destruct (String.eqb c ".."); [by apply IH|].
    destruct (ns !! (cur ++ [c])%list) as [[|c0]|] eqn:E; [by apply IH|done|].
    intros H Hq. eapply IH; [exact H|].
    rewrite lookup_insert_ne; [exact Hq|]. intros <-. congruence.
Qed.

(** [os.makedirs] leaves every file as it was. *)
Lemma read_makedirs fs s fs' q c :
  Fs.makedirs fs s = Some fs' -> Fs.read fs q = Some c -> Fs.read fs' q = Some c.
Proof.
  intros Hm. pose proof (makedirs_cwd _ _ _ Hm) as Hcwd.
  pose proof (makedirs_mono _ _ _ Hm) as Hle.
  unfold Fs.read. destruct (Fs.resolve fs q) as [p|] eqn:Hr; [|done].
  rewrite (resolve_stable _ _ _ _ Hcwd Hle Hr).
  destruct (Fs.nodes fs !! p) as [[|c']|] eqn:Hn; try done. intros [= <-].
  unfold Fs.makedirs in Hm.
  destruct (Fs.walk_create _ _ _) as [[ns p']|] eqn:Hw; [|done].
  injection Hm as <-. cbn [Fs.nodes].
  by rewrite (walk_create_keeps _ _ _ _ _ _ _ Hw Hn).
Qed.

(** Where the files of a plain key's index are. *)
Lemma resolve_index_file fs user_id folder_name name p :
  plain user_id = true -> no_slash folder_name = true ->
  Fs.components name = [name] ->
  Fs.is_dot name = false -> String.eqb name ".." = false ->
  Fs.resolve fs (Fs.child (Server.index_path_of user_id folder_name) name) = Some p ->
  p = (Fs.cwd fs ++ ["data"; "indexes"; user_id;
                     (folder_name ++ "_faiss")%string; name])%list.
Proof.
  intros Hu Hf Hc Hdot Hup. unfold Fs.resolve.
  rewrite components_child, Hc, (components_index_path _ _ Hu Hf).
  assert (Hs : Fs.start fs (Fs.child (Server.index_path_of user_id folder_name) name)
               = Fs.cwd fs).
  { rewrite (index_path_plain _ _ Hu Hf). reflexivity. }
  rewrite Hs. rewrite (index_path_plain _ _ Hu Hf).
  change (String.eqb ("./data/indexes/" ++ user_id ++ "/" ++ folder_name ++ "_faiss") "")
    with false. cbv iota.
  apply plain_inv in Hu as (_ & Hd & Hup' & _).
  destruct (faiss_name _ Hf) as (_ & Hd' & Hup'').
  cbn [Fs.walk app]. change (Fs.is_dot ".") with true. cbv iota.
  change (Fs.is_dot "data") with false. change (String.eqb "data" "..") with false.
  change (Fs.is_dot "indexes") with false. change (String.eqb "indexes" "..") with false.
  cbv iota. rewrite Hd, Hup', Hd', Hup'', Hdot, Hup.
  repeat match goal with |- context [Fs.is_dir ?n ?q] => destruct (Fs.is_dir n q) end;
    try discriminate.
  intros [= <-]. by rewrite <- !app_assoc.
Qed.

(** X8. Between plain keys (a user id and a folder name without [/], the
    user id not [.], [..] or empty), [index_folder] touches its own index
    only: whatever it returns, an index file of any other plain key that
    could be read before the request reads the same after it. *)
Theorem index_folder_spares_other_plain_keys env request user_id w
        user_id' folder_name' name c :
  plain user_id = true -> no_slash (ir_folder_name request) = true ->
  plain user_id' = true -> no_slash folder_name' = true ->
  (user_id, ir_folder_name request) <> (user_id', folder_name') ->
  name = "index.faiss" \/ name = "index.pkl" ->
  let file := Fs.child (Server.index_path_of user_id' folder_name') name in
  Fs.read (w_fs w) file = Some c ->
  Fs.read (w_fs (snd (Server.index_folder env request user_id w))) file = Some c.
Proof.
  intros Hu Hf Hu' Hf' Hne Hname. cbv zeta.
  set (file := Fs.child (Server.index_path_of user_id' folder_name') name).
  assert (Hn : Fs.components name = [name] /\ Fs.is_dot name = false
               /\ String.eqb name ".." = false).
  { destruct Hname as [-> | ->]; repeat split. }
  destruct Hn as (Hn1 & Hn2 & Hn3).
  assert (Hwrite : forall own content fs fs',
             own = "index.faiss" \/ own = "index.pkl" ->
             Fs.read fs file = Some c ->
             Fs.write fs (Fs.child (Server.save_path (ir_folder_name request) user_id)
                            own) content = Some fs' ->
             Fs.read fs' file = Some c).
  { intros own content fs fs' Hown Hr Hw.
    apply (read_write_other _ _ _ _ _ _ Hw Hr). intros p p' Hp Hp' ->.
    rewrite <- index_path_is_save_path in Hp.
    apply (resolve_index_file _ _ _ _ _ Hu Hf) in Hp;
      [|destruct Hown as [-> | ->]; reflexivity..].
    apply (resolve_index_file _ _ _ _ _ Hu' Hf' Hn1 Hn2 Hn3) in Hp'.
    rewrite Hp in Hp'. apply app_inv_head in Hp'.
    injection Hp' as Hu1 Hf1 _. apply append_cancel_r in Hf1.
    apply Hne. by rewrite Hu1, Hf1. }
  apply (keeps_catch (fun fs => Fs.read fs file = Some c));
    [|intros e; apply keeps_raise].
  apply keeps_bind; [apply keeps_oblivious, oblivious_build_index|]. intros b.
  apply keeps_bind; [|intros _; apply keeps_ret].
  unfold Server.store_index.
  apply keeps_bind; [apply keeps_makedirs; intros fs fs' Hr Hm;
                     exact (read_makedirs _ _ _ _ _ Hm Hr)|]. intros _.
  unfold FAISS.save_local.
  apply keeps_bind; [apply keeps_makedirs; intros fs fs' Hr Hm;
                     exact (read_makedirs _ _ _ _ _ Hm Hr)|]. intros _.
  apply keeps_bind; [|intros _]; apply keeps_write_file; intros fs fs' Hr Hw.
  - exact (Hwrite "index.faiss" _ fs fs' (or_introl eq_refl) Hr Hw).
  - exact (Hwrite "index.pkl" _ fs fs' (or_intror eq_refl) Hr Hw).
Qed.

Lemma index_folder_spares_other_plain_keys_witness :
  Fs.read (w_fs (snd (Server.index_folder Scenario.env0 {| ir_folder_name := "own" |}
                        "u1" Scenario.after_u2)))
    (Fs.child (Server.index_path_of "u2" "notes") "index.faiss")
  = Some (Fs.FaissIndex [[38%Z]]).
Proof.
  apply (index_folder_spares_other_plain_keys Scenario.env0
           {| ir_folder_name := "own" |} "u1" Scenario.after_u2 "u2" "notes"
           "index.faiss" (Fs.FaissIndex [[38%Z]]));
    try reflexivity.
  - discriminate.
  - left. reflexivity.
Defined.

(** * More of [server.py]: a listing that fails or holds no PDF *)

(** X9. When both forms of the listing call fail, [index_folder] answers
    500 with the text of the second (positional) failure; the first
    failure is not reported. It has made the two listing calls and nothing
    else, and the disk is as it was. *)
Theorem index_folder_reports_the_fallback_listing_error env request user_id w e1 e2 :
  let folder_path := user_id ++ "/" ++ ir_folder_name request in
  storage_list env ByKeyword folder_path = Raise e1 ->
  storage_list env ByPosition folder_path = Raise e2 ->
  Server.index_folder env request user_id w
  = (Raise (HTTPException 500 ("Error indexing folder: " ++ str e2)),
     log [StorageList ByKeyword folder_path; StorageList ByPosition folder_path] w).
Proof.
  cbv zeta. intros H1 H2.
  unfold Server.index_folder, catch, Server.build_index. unfold bind at 1 2.
  by rewrite list_files_run, H1, H2.
Qed.

Lemma index_folder_reports_the_fallback_listing_error_witness :
  Server.index_folder Faults.env2 {| ir_folder_name := "down" |} "u1" Scenario.boot
  = (Raise (HTTPException 500 "Error indexing folder: StorageException"),
     log [StorageList ByKeyword "u1/down"; StorageList ByPosition "u1/down"]
       Scenario.boot).
Proof.
  apply (index_folder_reports_the_fallback_listing_error Faults.env2
           {| ir_folder_name := "down" |} "u1" Scenario.boot
           (Error "list() got an unexpected keyword argument 'path'")
           (Error "StorageException")); reflexivity.
Defined.

(** X10. A folder whose listing holds no PDF, or nothing at all: the 404
    raised for it leaves [index_folder] as a 500 whose detail quotes the
    404, and after the listing nothing was called: no download, no
    provider, no disk access. *)
Theorem index_folder_without_pdfs_is_500 env request user_id w files :
  let folder_name := ir_folder_name request in
  let folder_path := user_id ++ "/" ++ folder_name in
  fst (Server.list_files env folder_path w) = Ok files ->
  List.filter Server.is_pdf files = [] ->
  exists evs,
    Server.index_folder env request user_id w
    = (Raise (HTTPException 500
                ("Error indexing folder: 404: "
                 ++ match files with
                    | [] => "No files found in folder '" ++ folder_name
                            ++ "'. Path checked: " ++ folder_path
                            ++ ". Make sure files are uploaded to the correct location."
                    | _ => "No PDF files found in folder '" ++ folder_name ++ "'"
                    end)),
       log evs w)
    /\ Forall (fun e => exists form, e = StorageList form folder_path) evs.
Proof.
  cbv zeta. intros Hl Hp.
  unfold Server.index_folder, catch, Server.build_index. unfold bind at 1 2.
  rewrite list_files_run in Hl |- *.
  destruct (storage_list env ByKeyword _) as [kw|e1].
  - cbn [fst] in Hl. injection Hl as ->. eexists. split.
    + destruct files as [|f files]; [reflexivity|]. by rewrite Hp.
    + repeat constructor; eauto.
  - cbn [fst] in Hl. rewrite Hl. eexists. split.
    + destruct files as [|f files]; [reflexivity|]. by rewrite Hp.
    + repeat constructor; eauto.
Qed.

Lemma index_folder_without_pdfs_is_500_witness :
  exists evs,
    Server.index_folder Faults.env2 {| ir_folder_name := "docs" |} "u1" Scenario.boot
    = (Raise (HTTPException 500
                ("Error indexing folder: 404: "
                 ++ "No PDF files found in folder '" ++ "docs" ++ "'")),
       log evs Scenario.boot)
    /\ Forall (fun e => exists form, e = StorageList form ("u1" ++ "/" ++ "docs")) evs.
Proof.
  apply (index_folder_without_pdfs_is_500 Faults.env2 {| ir_folder_name := "docs" |}
           "u1" Scenario.boot
           [Scenario.entry "notes.txt"; Scenario.entry ".placeholder"]);
    reflexivity.
Defined.

(** X11. [index_folder] touches the index directory last. Its calls are a
    stretch without any file-system call, followed by an initial stretch of
    the four calls of the store step: [makedirs] of the user's directory,
    [mkdir] of the index folder, the write of [index.faiss], the write of
    [index.pkl]. The second stretch is empty unless listing, download,
    parsing, chunking and embedding all came through. *)
Theorem index_folder_touches_the_disk_last env request user_id w :
  let folder_name := ir_folder_name request in
  let sp := Server.save_path folder_name user_id in
  exists before store,
    w_trace (snd (Server.index_folder env request user_id w))
    = (w_trace w ++ before ++ store)%list
    /\ Forall (fun e => is_index_access e = false) before
    /\ store `prefix_of` [MakeDirs (Server.user_dir user_id); MakeDirs sp;
                          WriteFile (Fs.child sp "index.faiss");
                          WriteFile (Fs.child sp "index.pkl")]
    /\ (store <> [] ->
        exists b, Server.build_index env folder_name user_id w = (Ok b, log before w)).
Proof.
  cbv zeta.
  destruct (oblivious_build_index env (ir_folder_name request) user_id)
    as (rb & evs & Hob).
  assert (Hevs : Forall (fun e => is_index_access e = false) evs).
  { destruct (logs_build_index (Forall (fun e => is_index_access e = false))
                (List.Forall_nil _)
                (fun a b Ha Hb => proj2 (Forall_app _ a b) (conj Ha Hb))
                env (ir_folder_name request) user_id) with (w := w)
      as (evs' & Ht & Hp); try (intros; repeat constructor).
    rewrite Hob in Ht. cbn [snd log w_trace] in Ht.
    apply app_inv_head in Ht. by subst. }
  unfold Server.index_folder, catch. unfold bind at 1. rewrite Hob.
  destruct rb as [b|e].
  2:{ exists evs, []. unfold raise. cbn [snd log w_trace]. rewrite app_nil_r.
      split; [reflexivity|]. split; [exact Hevs|]. split; [by eexists|done]. }
  destruct (store_index_in_place env (ir_folder_name request) user_id b (log evs w))
    as (store & Ht & Hpre).
  exists evs, store. split.
  { unfold bind. destruct (Server.store_index _ _ _ _ _) as [[u|e] w1];
      unfold ret, raise; cbn [snd log w_trace] in *; by rewrite Ht, app_assoc. }
  split; [exact Hevs|]. split; [exact Hpre|]. intros _. by exists b.
Qed.

(** * More of [server.py]: who is asking *)

Lemma prefix_app (p : string) : forall s,
  String.prefix p s = true -> exists rest, s = p ++ rest.
Proof.
  induction p as [|a p IH]; intros s; [by exists s|].
  destruct s as [|b s]; [done|]. cbn [String.prefix].
  destruct (ascii_dec a b) as [<-|_]; [|done].
  intros (rest & ->)%IH. by exists rest.
Qed.

Lemma split_bearer (rest : string) :
  PyStr.split_char " " ("Bearer " ++ rest) = "Bearer" :: PyStr.split_char " " rest.
Proof. reflexivity. Qed.

(** After the check for ["Bearer "] the header always has a second field. *)
Lemma split_token_bearer (rest : string) :
  Auth.split_token ("Bearer " ++ rest) = Ok (hd "" (PyStr.split_char " " rest)).
Proof.
  unfold Auth.split_token. rewrite split_bearer.
  pose proof (split_char_nonempty " " rest).
  by destruct (PyStr.split_char " " rest).
Qed.

Lemma startswith_bearer (rest : string) :
  PyStr.startswith ("Bearer " ++ rest) "Bearer " = true.
Proof. unfold PyStr.startswith. by destruct rest. Qed.

Lemma no_space_split (s : string) : no_space s = true -> PyStr.split_char " " s = [s].
Proof.
  induction s as [|c r IH]; [reflexivity|]. simpl.
  intros [Hc Hr]%andb_prop. apply negb_true_iff in Hc. rewrite Hc, (IH Hr).
  reflexivity.
Qed.

(** [get_current_user] on a header that passed the first check. *)
Lemma get_current_user_bearer secret decode rest :
  Auth.get_current_user secret decode (Some ("Bearer " ++ rest))
  = match Auth.decode_user secret decode (hd "" (PyStr.split_char " " rest)) with
    | inr user_id => Ok user_id
    | inl (Auth.Expired _) => Raise (HTTPException 401 "Token expired")
    | inl (Auth.Invalid m) => Raise (HTTPException 401 ("Invalid token: " ++ m))
    | inl (Auth.Other e) => Raise (HTTPException 500 ("Authentication error: " ++ str e))
    end.
Proof.
  unfold Auth.get_current_user. by rewrite startswith_bearer, split_token_bearer.
Qed.

(** X12. [get_current_user] either returns a non-empty user id, or raises
    an [HTTPException] with status 401 or 500: the [split(" ")[1]] before
    the [try] never fails with an [IndexError]. A user id is returned only
    for a header that starts with "Bearer ", under a configured secret, and
    it is the [sub] entry of what [jwt.decode] made, for algorithm HS256
    and audience "authenticated", of the header's second field. *)
Theorem get_current_user_returns_a_user_or_401_or_500 secret decode authorization :
  match Auth.get_current_user secret decode authorization with
  | Ok user_id =>
      user_id <> ""
      /\ exists rest,
           authorization = Some ("Bearer " ++ rest)
           /\ Settings.truthy secret = true
           /\ decode (hd "" (PyStr.split_char " " rest)) (str_opt secret)
                     ["HS256"] "authenticated"
              = Auth.Payload (Some user_id)
  | Raise (HTTPException code _) => code = 401%Z \/ code = 500%Z
  | Raise (Error _) => False
  end.
Proof.
  destruct authorization as [header|]; [|left; reflexivity].
  destruct (PyStr.startswith header "Bearer ") eqn:Hb.
  2:{ unfold Auth.get_current_user. rewrite Hb. left. reflexivity. }
  apply prefix_app in Hb as (rest & ->). rewrite get_current_user_bearer.
  unfold Auth.decode_user. destruct (Settings.truthy secret) eqn:Hs; [|by right].
  cbn [negb].
  destruct (decode _ _ _ _) as [sub|m|m|m] eqn:Hd; try (by left); try (by right).
  destruct sub as [user_id|]; [|by right]. cbn [Settings.truthy].
  destruct (String.eqb_spec user_id "") as [->|Hne]; [by right|].
  cbn [negb str_opt]. split; [exact Hne|]. exists rest. by rewrite Hd.
Qed.

(** X13. A token whose payload has no [sub] (or an empty one) is meant to
    be answered 401, but that [HTTPException] is raised inside the [try]
    and taken by [except Exception]: the request is answered 500, its
    detail quoting the 401. *)
Theorem token_without_subject_is_answered_500 secret decode rest sub :
  Settings.truthy secret = true ->
  decode (hd "" (PyStr.split_char " " rest)) (str_opt secret) ["HS256"] "authenticated"
  = Auth.Payload sub ->
  Settings.truthy sub = false ->
  Auth.get_current_user secret decode (Some ("Bearer " ++ rest))
  = Raise (HTTPException 500 "Authentication error: 401: Invalid token: no user ID").
Proof.
  intros Hs Hd Hsub. rewrite get_current_user_bearer. unfold Auth.decode_user.
  by rewrite Hs, Hd, Hsub.
Qed.

Lemma token_without_subject_is_answered_500_witness :
  Auth.get_current_user (Some "s3cret") Faults.decode0 (Some ("Bearer " ++ "nobody"))
  = Raise (HTTPException 500 "Authentication error: 401: Invalid token: no user ID").
Proof.
  apply (token_without_subject_is_answered_500 (Some "s3cret") Faults.decode0
           "nobody" None); reflexivity.
Defined.

(** X14. Only the header's second field is decoded: whatever follows a
    space after the token changes nothing. *)
Theorem get_current_user_ignores_what_follows_the_token secret decode token rest :
  no_space token = true ->
  Auth.get_current_user secret decode (Some ("Bearer " ++ token ++ " " ++ rest))
  = Auth.get_current_user secret decode (Some ("Bearer " ++ token)).
Proof.
  intros Ht. rewrite !get_current_user_bearer.
  change (token ++ " " ++ rest) with (token ++ String " " rest).
  by rewrite split_char_app, (no_space_split _ Ht).
Qed.

Lemma get_current_user_ignores_what_follows_the_token_witness :
  Auth.get_current_user (Some "s3cret") Faults.decode0
    (Some ("Bearer " ++ "good" ++ " " ++ "and more"))
  = Auth.get_current_user (Some "s3cret") Faults.decode0 (Some ("Bearer " ++ "good")).
Proof.
  apply (get_current_user_ignores_what_follows_the_token (Some "s3cret")
           Faults.decode0 "good" "and more").
  reflexivity.
Defined.

(** * More of [server.py]: the settings and who is asking *)

(** X15. The import comes through exactly when the URL is set and one of
    the two keys is; the client key is then the service role key whenever
    that is set, else the anon key; the JWT secret is the configured one
    when set, else the anon key. "Set" means present and not empty. *)
Theorem settings_load_outcome getenv :
  let url := getenv "NEXT_PUBLIC_SUPABASE_URL" in
  let anon_key := getenv "NEXT_PUBLIC_SUPABASE_ANON_KEY" in
  let service_key := getenv "SUPABASE_SERVICE_ROLE_KEY" in
  let jwt_secret := getenv "SUPABASE_JWT_SECRET" in
  match Settings.load getenv with
  | Ok s =>
      Settings.truthy url = true
      /\ (Settings.truthy service_key = true \/ Settings.truthy anon_key = true)
      /\ Settings.truthy (Settings.SUPABASE_KEY s) = true
      /\ Settings.SUPABASE_KEY s
         = (if Settings.truthy service_key then service_key else anon_key)
      /\ Settings.SUPABASE_JWT_SECRET s
         = (if Settings.truthy jwt_secret then jwt_secret else anon_key)
  | Raise _ =>
      Settings.truthy url = false
      \/ (Settings.truthy service_key = false /\ Settings.truthy anon_key = false)
  end.
Proof.
  cbv zeta. unfold Settings.load.
  destruct (Settings.truthy (getenv "NEXT_PUBLIC_SUPABASE_URL")); [|by left].
  cbn [negb].
  destruct (Settings.truthy (getenv "SUPABASE_SERVICE_ROLE_KEY")) eqn:Hs.
  - rewrite Hs. cbn [negb Settings.SUPABASE_KEY Settings.SUPABASE_JWT_SECRET].
    destruct (Settings.truthy (getenv "SUPABASE_JWT_SECRET")); auto 6.
  - destruct (Settings.truthy (getenv "NEXT_PUBLIC_SUPABASE_ANON_KEY")) eqn:Ha;
      [|by right].
    cbn [negb Settings.SUPABASE_KEY Settings.SUPABASE_JWT_SECRET].
    destruct (Settings.truthy (getenv "SUPABASE_JWT_SECRET")); auto 6.
Qed.

(** X16. With the service role key but neither a JWT secret nor an anon
    key, the import comes through and the server starts, yet no request
    can authenticate: every header that starts with "Bearer " is answered
    500, whatever the token. *)
Theorem no_jwt_secret_and_no_anon_key_is_500 getenv s decode rest :
  Settings.load getenv = Ok s ->
  Settings.truthy (getenv "SUPABASE_JWT_SECRET") = false ->
  Settings.truthy (getenv "NEXT_PUBLIC_SUPABASE_ANON_KEY") = false ->
  Auth.get_current_user (Settings.SUPABASE_JWT_SECRET s) decode
    (Some ("Bearer " ++ rest))
  = Raise (HTTPException 500
             ("Authentication error: 500: "
              ++ "Server configuration error: JWT secret not configured")).
Proof.
  intros Hl Hj Ha. unfold Settings.load in Hl.
  destruct (negb (Settings.truthy (getenv "NEXT_PUBLIC_SUPABASE_URL"))); [done|].
  destruct (negb (Settings.truthy _)); [done|]. injection Hl as <-.
  rewrite get_current_user_bearer. unfold Auth.decode_user.
  cbn [Settings.SUPABASE_JWT_SECRET]. rewrite Hj. cbn [negb]. by rewrite Ha.
Qed.

Lemma no_jwt_secret_and_no_anon_key_is_500_witness :
  Auth.get_current_user None Faults.decode0 (Some ("Bearer " ++ "good"))
  = Raise (HTTPException 500
             ("Authentication error: 500: "
              ++ "Server configuration error: JWT secret not configured")).
Proof.
  apply (no_jwt_secret_and_no_anon_key_is_500 Faults.getenv0
           {| Settings.SUPABASE_URL := Some "https://project.supabase.co";
              Settings.SUPABASE_ANON_KEY := None;
              Settings.SUPABASE_SERVICE_KEY := Some "service-role-key";
              Settings.SUPABASE_KEY := Some "service-role-key";
              Settings.SUPABASE_JWT_SECRET := None |}
           Faults.decode0 "good"); reflexivity.
Defined.

(** X17. Without [SUPABASE_JWT_SECRET], tokens are checked against the
    public anon key: a request is then authenticated as [user_id] exactly
    when [jwt.decode] accepts the header's second field under the anon key
    with a non-empty [sub]. *)
Theorem without_jwt_secret_the_anon_key_checks_tokens getenv s decode rest user_id :
  Settings.load getenv = Ok s ->
  Settings.truthy (getenv "SUPABASE_JWT_SECRET") = false ->
  Auth.get_current_user (Settings.SUPABASE_JWT_SECRET s) decode
    (Some ("Bearer " ++ rest)) = Ok user_id
  <-> exists anon_key,
        getenv "NEXT_PUBLIC_SUPABASE_ANON_KEY" = Some anon_key
        /\ anon_key <> ""
        /\ user_id <> ""
        /\ decode (hd "" (PyStr.split_char " " rest)) anon_key ["HS256"] "authenticated"
           = Auth.Payload (Some user_id).
Proof.
  intros Hl Hj. unfold Settings.load in Hl.
  destruct (negb (Settings.truthy (getenv "NEXT_PUBLIC_SUPABASE_URL"))); [done|].
  destruct (negb (Settings.truthy _)); [done|]. injection Hl as <-.
  rewrite get_current_user_bearer. unfold Auth.decode_user.
  cbn [Settings.SUPABASE_JWT_SECRET]. rewrite Hj. cbn [negb].
  destruct (getenv "NEXT_PUBLIC_SUPABASE_ANON_KEY") as [anon_key|].
  2:{ cbn [Settings.truthy negb]. split; [done|]. by intros (? & ? & _). }
  cbn [Settings.truthy str_opt].
  destruct (String.eqb_spec anon_key "") as [->|Ha]; cbn [negb].
  { split; [done|]. by intros (? & [= <-] & ? & _). }
  split.
  - destruct (decode _ _ _ _) as [sub|m|m|m] eqn:Hd; try done.
    destruct sub as [u|]; [|done]. cbn [Settings.truthy str_opt].
    destruct (String.eqb_spec u "") as [->|Hu]; [done|]. cbn [negb].
    intros [= <-]. exists anon_key. by rewrite Hd.
  - intros (k & [= <-] & _ & Hu & ->). cbn [Settings.truthy str_opt].
    by destruct (String.eqb_spec user_id "").
Qed.

Lemma without_jwt_secret_the_anon_key_checks_tokens_witness :
  Auth.get_current_user (Some "s3cret") Faults.decode0 (Some ("Bearer " ++ "good"))
  = Ok "u1"
  <-> exists anon_key,
        Faults.getenv1 "NEXT_PUBLIC_SUPABASE_ANON_KEY" = Some anon_key
        /\ anon_key <> ""
        /\ "u1" <> ""
        /\ Faults.decode0 (hd "" (PyStr.split_char " " "good")) anon_key
             ["HS256"] "authenticated"
           = Auth.Payload (Some "u1").
Proof.
  apply (without_jwt_secret_the_anon_key_checks_tokens Faults.getenv1
           {| Settings.SUPABASE_URL := Some "https://project.supabase.co";
              Settings.SUPABASE_ANON_KEY := Some "s3cret";
              Settings.SUPABASE_SERVICE_KEY := None;
              Settings.SUPABASE_KEY := Some "s3cret";
              Settings.SUPABASE_JWT_SECRET := Some "s3cret" |}
           Faults.decode0 "good" "u1"); reflexivity.
Defined.

(** * More of [server.py]: the listing endpoints *)

(** X18. [get_folders] makes one call, the positional listing of the
    user's own prefix, and touches nothing else. Its answer holds, in
    listing order, the names of the entries that have no id, and no entry
    that has one; a failed listing is answered 500 with the failure's
    text. *)
Theorem get_folders_lists_the_users_prefix_once env user_id w :
  snd (Endpoints.get_folders env user_id w) = log [StorageList ByPosition user_id] w
  /\ match fst (Endpoints.get_folders env user_id w) with
     | Ok r =>
         Endpoints.folders_user_id r = user_id
         /\ exists files,
              storage_list env ByPosition user_id = Ok files
              /\ Endpoints.folders r
                 = map fo_name (List.filter (fun f => bool_decide (fo_id f = None)) files)
              /\ (length (Endpoints.folders r) <= length files)%nat
     | Raise e =>
         exists e0,
           storage_list env ByPosition user_id = Raise e0
           /\ e = HTTPException 500 ("Error fetching folders: " ++ str e0)
     end.
Proof.
  unfold Endpoints.get_folders, catch, bind, emit, lift, ret, raise, log.
  cbn [fst snd]. destruct (storage_list env ByPosition user_id) as [files|e0].
  - cbn [fst snd Endpoints.folders Endpoints.folders_user_id].
    split; [reflexivity|]. split; [reflexivity|]. exists files.
    split; [reflexivity|].
    assert (Hf : forall f, Endpoints.is_folder f = bool_decide (fo_id f = None)).
    { intros f. unfold Endpoints.is_folder. by destruct (fo_id f). }
    split.
    + f_equal. apply filter_ext. exact Hf.
    + rewrite length_map. apply filter_length_le.
  - cbn [fst snd]. split; [reflexivity|]. by exists e0.
Qed.

(** X19. [debug_list_storage] never raises: a failed listing comes back as
    an ordinary answer carrying the failure's text. It lists the bucket
    root first, whoever asks, then the user's prefix, then the folder;
    it stops at the first listing that fails, and it touches no disk. *)
Theorem debug_list_storage_never_raises env user_folder user_id w :
  let calls := [StorageList ByPosition "";
                StorageList ByPosition user_id;
                StorageList ByPosition (user_id ++ "/" ++ user_folder)] in
  exists answer evs,
    Endpoints.debug_list_storage env user_folder user_id w = (Ok answer, log evs w)
    /\ match answer with
       | Endpoints.DebugListing u f root_files user_files folder_files =>
           u = user_id /\ f = user_folder /\ evs = calls
           /\ storage_list env ByPosition "" = Ok root_files
           /\ storage_list env ByPosition user_id = Ok user_files
           /\ storage_list env ByPosition (user_id ++ "/" ++ user_folder)
              = Ok folder_files
       | Endpoints.DebugError message =>
           exists done p e,
             (done ++ [StorageList ByPosition p])%list = evs
             /\ evs `prefix_of` calls
             /\ storage_list env ByPosition p = Raise e
             /\ message = str e
       end.
Proof.
  cbv zeta. unfold Endpoints.debug_list_storage, catch, bind, emit, lift, ret.
  cbn [fst snd].
  destruct (storage_list env ByPosition "") as [root_files|e] eqn:H1.
  2:{ do 2 eexists. split; [reflexivity|]. exists [], "", e.
      split; [reflexivity|]. split; [by eexists|]. by split. }
  destruct (storage_list env ByPosition user_id) as [user_files|e] eqn:H2.
  2:{ do 2 eexists. split; [unfold log; cbn [w_fs w_trace];
                            by rewrite <- !app_assoc|].
      exists [StorageList ByPosition ""], user_id, e.
      split; [reflexivity|]. split; [by eexists|]. by split. }
  destruct (storage_list env ByPosition (user_id ++ "/" ++ user_folder))
    as [folder_files|e] eqn:H3.
  2:{ do 2 eexists. split; [unfold log; cbn [w_fs w_trace];
                            by rewrite <- !app_assoc|].
      exists [StorageList ByPosition ""; StorageList ByPosition user_id],
             (user_id ++ "/" ++ user_folder), e.
      split; [reflexivity|]. split; [by exists []|]. by split. }
  do 2 eexists. split; [unfold log; cbn [w_fs w_trace]; by rewrite <- !app_assoc|].
  by repeat split.
Qed.

(** X20. The skip of [".placeholder"] in the download loop can never be
    taken: the loop runs over the entries whose lower-cased name ends in
    ".pdf", and [".placeholder"] is not among those. So every entry counted
    in [files_processed] is downloaded. *)
Theorem placeholder_skip_is_never_taken files f :
  In f (List.filter Server.is_pdf files) ->
  Server.is_placeholder (fo_name f) = false.
Proof. intros [_ Hf]%filter_In. by apply is_pdf_not_placeholder. Qed.

Lemma placeholder_skip_is_never_taken_witness :
  Server.is_placeholder (fo_name (Scenario.entry "secret.PDF")) = false.
Proof.
  apply (placeholder_skip_is_never_taken (Scenario.listing "u2/notes")
           (Scenario.entry "secret.PDF")).
  vm_compute. left. reflexivity.
Defined.
